(** * Escala Geração Eleita: role staffing and response reconciliation

    A shallow embedding of the scheduling front end (the React application
    in [src/unnamed/part_002] and its earlier revision
    [src/frontend/src/App.js]) together with the properties its
    specification states about role requirements, schedule forms and
    assignee responses.

    JavaScript strings are [string]; [===] on strings is [String.eqb];
    arrays are lists; the [responses] object, used as a dictionary keyed by
    user id, is a [gmap string Response] (user ids are assumed not to be
    names of [Object.prototype] members).  Objects that the code mutates in
    place live in an explicit heap and are referred to by location. *)

From Stdlib Require Import String List Bool Arith Lia.
From stdpp Require Import base option strings list gmap.

Open Scope string_scope.

(** ** Data exchanged with the API *)

(** One entry of [assignment.responses]; the front end reads [status]
    only and sends [reason] along with a refusal. *)
Record Response := mkResponse {
  status : string;
  reason : string
}.

(** [{ function_type, user_ids, responses }] *)
Record Assignment := mkAssignment {
  function_type : string;
  user_ids : list string;
  responses : gmap string Response
}.

(** A schedule as returned by [GET /schedules]; [A] is [Assignment] where
    the record is only read and a heap location where the assignment
    objects are shared and mutated. *)
Record Schedule (A : Type) := mkSchedule {
  id : string;
  date : string;
  day_type : string;
  assignments : list A
}.
Arguments mkSchedule {A} _ _ _ _.
Arguments id {A} _.
Arguments date {A} _.
Arguments day_type {A} _.
Arguments assignments {A} _.

(** A user as [GET /users], [GET /me] and [POST /login] return it. *)
Record User := mkUser {
  user_id : string;
  user_username : string;
  user_name : string;
  user_email : string;
  user_role : string
}.

(** A notification as [GET /notifications] returns it. *)
Record Notification := mkNotification {
  notification_id : string;
  notification_message : string;
  notification_read : bool;
  notification_created_at : string
}.

(** [array.find(pred)]: the first element satisfying [pred]. *)
Definition js_find {A} (pred : A -> bool) (l : list A) : option A :=
  List.find pred l.

(** ** Rendered view of a schedule card

    Mark-up, class names and label texts are left out; what remains is
    which role sections exist, which people they list, which status badge
    each person carries and where the Accept / Decline buttons appear. *)

Inductive Badge := Confirmado | Recusado | Pendente.

(** A request a button sends through [handleScheduleResponse]; the
    free-text [reason] typed at the prompt is not part of the view. *)
Record ResponseRequest := mkResponseRequest {
  req_schedule_id : string;
  req_function_type : string;
  req_status : string
}.

Record UserRow := mkUserRow {
  row_userId : string;
  row_isCurrentUser : bool;
  row_badge : option Badge;
  row_buttons : list ResponseRequest   (* empty when no button is shown *)
}.

Record CardSection := mkCardSection {
  sec_function : string;          (* role whose label heads the section *)
  sec_count : nat;                (* "n" of "n pessoa(s)" *)
  sec_required : option nat;      (* "/required", absent in the old card *)
  sec_rows : list UserRow;
  sec_nobody_note : bool;         (* "Nenhuma pessoa atribuída ainda" *)
  sec_vacancies : nat             (* number of "Vaga disponível" slots *)
}.

(** [response.status === 'accepted' ? 'Confirmado' :
     response.status === 'declined' ? 'Recusado' : 'Pendente'] *)
Definition badge_of (r : Response) : Badge :=
  if String.eqb (status r) "accepted" then Confirmado
  else if String.eqb (status r) "declined" then Recusado
  else Pendente.

(** One person of an assignment, as both card versions render it:
    [response = assignment.responses?.[userId]],
    [isCurrentUser = userId === user.id], the badge under [response &&],
    the two buttons under [isCurrentUser && !response], each calling
    [handleScheduleResponse(schedule.id, assignment.function_type, _)]. *)
Definition render_user (current_user schedule_id : string) (a : Assignment)
    (userId : string) : UserRow :=
  let response := responses a !! userId in
  let isCurrentUser := String.eqb userId current_user in
  {| row_userId := userId;
     row_isCurrentUser := isCurrentUser;
     row_badge := badge_of <$> response;
     row_buttons :=
       if isCurrentUser && negb (bool_decide (is_Some response))
       then [ mkResponseRequest schedule_id (function_type a) "accepted";
              mkResponseRequest schedule_id (function_type a) "declined" ]
       else [] |}.

(** Every request some button of the rendered sections can send. *)
Definition card_requests (secs : list CardSection) : list ResponseRequest :=
  flat_map (fun sec => flat_map row_buttons (sec_rows sec)) secs.

(** ** Authentication context (src/unnamed/part_002, src/frontend/src/App.js)

    [AuthProvider] keeps the user and the token in component state, the
    token in [localStorage] and the header in the defaults of axios. *)

Module Auth.

Record State := mkState {
  user : option User;
  token : option string;
  storage_token : option string;  (* localStorage item 'token' *)
  authorization : option string   (* axios.defaults.headers.common['Authorization'] *)
}.

(** [if (token)]: [null] and the empty string are falsy. *)
Definition truthy (t : option string) : bool :=
  match t with
  | Some t => negb (String.eqb t "")
  | None => false
  end.

(** The state of the first render: [useState(null)] and
    [useState(localStorage.getItem('token'))], no header set yet. *)
Definition initial (stored : option string) : State :=
  {| user := None;
     token := stored;
     storage_token := stored;
     authorization := None |}.

(** Body of [useEffect(..., [token])]; the flag tells whether
    [fetchUserInfo] is called. *)
Definition tokenEffect (s : State) : State * bool :=
  match token s with
  | Some t =>
      if truthy (Some t)
      then ({| user := user s;
               token := token s;
               storage_token := storage_token s;
               authorization := Some ("Bearer " ++ t) |}, true)
      else (s, false)
  | None => (s, false)
  end.

Definition logout (s : State) : State :=
  {| user := None;
     token := None;
     storage_token := None;
     authorization := None |}.

(** What [POST /login] answers: the token and the user, or an error with
    the [detail] it may carry. *)
Inductive LoginReply :=
  | LoginOk (access_token : string) (userData : User)
  | LoginError (detail : option string).

(** [{ success, message }] *)
Record LoginResult := mkLoginResult {
  success : bool;
  message : option string
}.

Definition login (reply : LoginReply) (s : State) : LoginResult * State :=
  match reply with
  | LoginOk access_token userData =>
      (mkLoginResult true None,
       {| user := Some userData;
          token := Some access_token;
          storage_token := Some access_token;
          authorization := Some ("Bearer " ++ access_token) |})
  | LoginError detail =>
      (mkLoginResult false
         (Some match detail with
               | Some d => if String.eqb d "" then "Erro no login" else d
               | None => "Erro no login"
               end),
       s)
  end.

(** [fetchUserInfo] once [GET /me] has answered: the user, or [None] for
    a failed request. *)
Definition fetchUserInfo (reply : option User) (s : State) : State :=
  match reply with
  | Some data =>
      {| user := Some data;
         token := token s;
         storage_token := storage_token s;
         authorization := authorization s |}
  | None => logout s
  end.


(** What can happen to a mounted provider. *)
Inductive Event :=
  | LoginAnswered (reply : LoginReply)
  | LogoutClick
  | MeAnswered (reply : option User).

(** The handler of the event, then the effect if [token] has changed. *)
Definition step (e : Event) (s : State) : State :=
  let s' := match e with
            | LoginAnswered reply => snd (login reply s)
            | LogoutClick => logout s
            | MeAnswered reply => fetchUserInfo reply s
            end in
  if decide (token s' = token s) then s' else fst (tokenEffect s').

Definition run (events : list Event) (s : State) : State :=
  fold_left (fun s e => step e s) events s.

(** The provider after its first render and the effect that follows. *)
Definition mount (stored : option string) : State :=
  fst (tokenEffect (initial stored)).

(** The token in state, the stored token and the header agree. *)
Definition consistent (s : State) : Prop :=
  storage_token s = token s
  /\ authorization s = (fun t => "Bearer " ++ t) <$> token s.




End Auth.

(** ** Dashboard (src/unnamed/part_002) *)

Module Dashboard.

Definition getRequiredCount (functionType dayType : string) : nat :=
  if String.eqb functionType "pregacao"
     || String.eqb functionType "introdutoria"
     || String.eqb functionType "portaria"
  then 1
  else if String.eqb functionType "limpeza"
          || String.eqb functionType "louvor"
  then 3
  else 1.

Definition getAllFunctions (dayType : string) : list string :=
  if String.eqb dayType "wednesday" || String.eqb dayType "saturday"
  then ["pregacao"; "limpeza"; "louvor"; "introdutoria"]
  else if String.eqb dayType "friday"
  then ["pregacao"; "portaria"]
  else [].

(** The requirements lookup the card performs: every function of
    [getAllFunctions(schedule.day_type)] paired with
    [getRequiredCount(functionType, schedule.day_type)]. *)
Definition requirementsFor (dayType : string) : list (string * nat) :=
  map (fun functionType => (functionType, getRequiredCount functionType dayType))
      (getAllFunctions dayType).

(** Body of [allFunctions.map((functionType) => ...)]. *)
Definition render_function (current_user : string)
    (schedule : Schedule Assignment) (functionType : string) : CardSection :=
  let assignment :=
    js_find (fun a => String.eqb (function_type a) functionType)
            (assignments schedule) in
  let requiredCount := getRequiredCount functionType (day_type schedule) in
  match assignment with
  | Some a =>
      let n := length (user_ids a) in
      {| sec_function := functionType;
         sec_count := n;
         sec_required := Some requiredCount;
         sec_rows := if (0 <? n)%nat
                     then map (render_user current_user (id schedule) a) (user_ids a)
                     else [];
         sec_nobody_note := negb (0 <? n)%nat;
         sec_vacancies := if (n <? requiredCount)%nat then requiredCount - n else 0 |}
  | None =>
      {| sec_function := functionType;
         sec_count := 0;
         sec_required := Some requiredCount;
         sec_rows := [];
         sec_nobody_note := true;
         sec_vacancies := requiredCount |}
  end.

Definition ScheduleCard (current_user : string)
    (schedule : Schedule Assignment) : list CardSection :=
  map (render_function current_user schedule)
      (getAllFunctions (day_type schedule)).

(** The red counter on the "Notificações" tab:
    [notifications.filter(n => !n.read).length], shown when positive. *)
Definition unread_badge (notifications : list Notification) : option nat :=
  let n := length (List.filter (fun n => negb (notification_read n))
                               notifications) in
  if (0 <? n)%nat then Some n else None.

(** One block of the notifications tab; [nrow_mark_read] is the id the
    "Marcar como lida" button patches, when the button is there. *)
Record NotificationRow := mkNotificationRow {
  nrow_message : string;
  nrow_highlighted : bool;
  nrow_mark_read : option string
}.

Definition render_notification (n : Notification) : NotificationRow :=
  {| nrow_message := notification_message n;
     nrow_highlighted := negb (notification_read n);
     nrow_mark_read := if negb (notification_read n)
                       then Some (notification_id n) else None |}.

(** The notifications tab: [None] stands for "Nenhuma notificação". *)
Definition render_notifications (notifications : list Notification)
    : option (list NotificationRow) :=
  if (length notifications =? 0)%nat then None
  else Some (map render_notification notifications).

End Dashboard.

(** ** The earlier card (src/frontend/src/App.js) *)

Module LegacyApp.

(** Body of [schedule.assignments.map((assignment, index) => ...)]. *)
Definition render_assignment (current_user : string)
    (schedule : Schedule Assignment) (a : Assignment) : CardSection :=
  {| sec_function := function_type a;
     sec_count := length (user_ids a);
     sec_required := None;
     sec_rows := map (render_user current_user (id schedule) a) (user_ids a);
     sec_nobody_note := false;
     sec_vacancies := 0 |}.

Definition ScheduleCard (current_user : string)
    (schedule : Schedule Assignment) : list CardSection :=
  map (render_assignment current_user schedule) (assignments schedule).

End LegacyApp.

(** ** Administration panel (src/unnamed/part_002) *)

(** How a statement list ends: normally with a value, or by throwing. *)
Inductive JsError := TypeError.

Inductive completion (A : Type) :=
  | Normal (a : A)
  | Throw (e : JsError).
Arguments Normal {A} _.
Arguments Throw {A} _.

(** *** Heap of assignment objects

    [handleAssignmentChange] writes a field of an assignment object that
    the form, the schedule being edited and the schedule list may all
    reference, so assignment objects are heap cells and arrays hold
    locations.  Allocation appends a cell. *)

Abbreviation loc := nat.

Definition alloc_all (h : list Assignment) (objs : list Assignment)
    : list loc * list Assignment :=
  (seq (length h) (length objs), (h ++ objs)%list).

(** Reads the objects an array of references points to; [None] on a
    dangling reference. *)
Fixpoint deref (h : list Assignment) (ls : list loc)
    : option (list Assignment) :=
  match ls with
  | [] => Some []
  | l :: ls' =>
      match h !! l, deref h ls' with
      | Some a, Some rest => Some (a :: rest)
      | _, _ => None
      end
  end.

(** Stores the assignment objects of parsed response data, schedule by
    schedule. *)
Fixpoint alloc_schedules (h : list Assignment)
    (data : list (Schedule Assignment))
    : list (Schedule loc) * list Assignment :=
  match data with
  | [] => ([], h)
  | sch :: rest =>
      let '(ls, h1) := alloc_all h (assignments sch) in
      let '(rest', h2) := alloc_schedules h1 rest in
      (mkSchedule (id sch) (date sch) (day_type sch) ls :: rest', h2)
  end.

(** [obj.user_ids = userIds] *)
Definition set_user_ids (userIds : list string) (a : Assignment) : Assignment :=
  {| function_type := function_type a;
     user_ids := userIds;
     responses := responses a |}.

Module AdminPanel.

(** [scheduleForm] *)
Record ScheduleForm := mkScheduleForm {
  form_date : string;
  form_day_type : string;
  form_assignments : list loc
}.

(** The part of the component state the schedule form works on. *)
Record State := mkState {
  heap : list Assignment;
  schedules : list (Schedule loc);
  editingSchedule : option (Schedule loc);
  scheduleForm : ScheduleForm;
  showScheduleForm : bool
}.

(** The values given to [useState]. *)
Definition initial_state : State :=
  {| heap := [];
     schedules := [];
     editingSchedule := None;
     scheduleForm := mkScheduleForm "" "wednesday" [];
     showScheduleForm := false |}.

(** [setSchedules(response.data)] of [fetchSchedules]. *)
Definition setSchedules (data : list (Schedule Assignment)) (s : State)
    : State :=
  let '(scheds, h) := alloc_schedules (heap s) data in
  {| heap := h;
     schedules := scheds;
     editingSchedule := editingSchedule s;
     scheduleForm := scheduleForm s;
     showScheduleForm := showScheduleForm s |}.

Definition getRequiredCount (functionType dayType : string) : nat :=
  if String.eqb functionType "pregacao"
     || String.eqb functionType "introdutoria"
     || String.eqb functionType "portaria"
  then 1
  else if String.eqb functionType "limpeza"
          || String.eqb functionType "louvor"
  then 3
  else 1.

(** Returns freshly created objects; the caller stores them. *)
Definition initializeScheduleAssignments (dayType : string)
    : list Assignment :=
  if String.eqb dayType "wednesday" || String.eqb dayType "saturday"
  then [ mkAssignment "pregacao" [] ∅;
         mkAssignment "limpeza" [] ∅;
         mkAssignment "louvor" [] ∅;
         mkAssignment "introdutoria" [] ∅ ]
  else if String.eqb dayType "friday"
  then [ mkAssignment "pregacao" [] ∅;
         mkAssignment "portaria" [] ∅ ]
  else [].

(** [onClick] of "+ Nova Escala". *)
Definition newScheduleClick (s : State) : State :=
  let '(ls, h) := alloc_all (heap s) (initializeScheduleAssignments "wednesday") in
  {| heap := h;
     schedules := schedules s;
     editingSchedule := None;
     scheduleForm := mkScheduleForm "" "wednesday" ls;
     showScheduleForm := true |}.

(** [onChange] of the date input:
    [setScheduleForm({ ...scheduleForm, date: e.target.value })]. *)
Definition dateChange (value : string) (s : State) : State :=
  {| heap := heap s;
     schedules := schedules s;
     editingSchedule := editingSchedule s;
     scheduleForm := mkScheduleForm value
                       (form_day_type (scheduleForm s))
                       (form_assignments (scheduleForm s));
     showScheduleForm := showScheduleForm s |}.

Definition handleDayTypeChange (dayType : string) (s : State) : State :=
  let '(ls, h) := alloc_all (heap s) (initializeScheduleAssignments dayType) in
  {| heap := h;
     schedules := schedules s;
     editingSchedule := editingSchedule s;
     scheduleForm := mkScheduleForm (form_date (scheduleForm s)) dayType ls;
     showScheduleForm := showScheduleForm s |}.

(** [newAssignments] is a copy of the array, not of the objects in it:
    the write goes to the shared object.  An index outside the array
    reads [undefined], and writing a property of it throws. *)
Definition handleAssignmentChange (assignmentIndex : nat)
    (userIds : list string) (s : State) : completion State :=
  let newAssignments := form_assignments (scheduleForm s) in
  match newAssignments !! assignmentIndex with
  | None => Throw TypeError
  | Some l =>
      Normal
        {| heap := alter (set_user_ids userIds) l (heap s);
           schedules := schedules s;
           editingSchedule := editingSchedule s;
           scheduleForm := mkScheduleForm (form_date (scheduleForm s))
                             (form_day_type (scheduleForm s))
                             newAssignments;
           showScheduleForm := showScheduleForm s |}
  end.

(** The form takes the very array of the schedule, objects included. *)
Definition handleEditSchedule (schedule : Schedule loc) (s : State) : State :=
  {| heap := heap s;
     schedules := schedules s;
     editingSchedule := Some schedule;
     scheduleForm := mkScheduleForm (date schedule) (day_type schedule)
                       (assignments schedule);
     showScheduleForm := true |}.

(** Body sent by [handleCreateSchedule]: the form, serialised. *)
Record Payload := mkPayload {
  body_date : string;
  body_day_type : string;
  body_assignments : list Assignment
}.

Inductive ApiCall :=
  | PUT_schedule (schedule_id : string) (body : Payload)
  | POST_schedule (body : Payload).

(** The request [handleCreateSchedule] issues; nothing in the handler
    looks at the form before sending it. *)
Definition handleCreateSchedule_request (s : State) : option ApiCall :=
  match deref (heap s) (form_assignments (scheduleForm s)) with
  | None => None
  | Some objs =>
      let body := mkPayload (form_date (scheduleForm s))
                            (form_day_type (scheduleForm s)) objs in
      Some match editingSchedule s with
           | Some e => PUT_schedule (id e) body
           | None => POST_schedule body
           end
  end.

(** What the handler does once the request has been answered, [None] for
    a success and [Some detail] for a failure with the text
    [error.response?.data?.detail || 'Erro desconhecido']: the alert it
    shows and the state it leaves ([fetchSchedules], which follows a
    success, is a separate request). *)
Definition handleCreateSchedule_done (answer : option string) (s : State)
    : string * State :=
  match answer with
  | None =>
      (if bool_decide (is_Some (editingSchedule s))
       then "Escala atualizada com sucesso!"
       else "Escala criada com sucesso!",
       {| heap := heap s;
          schedules := schedules s;
          editingSchedule := None;
          scheduleForm := mkScheduleForm "" "wednesday" [];
          showScheduleForm := false |})
  | Some detail => ("Erro ao salvar escala: " ++ detail, s)
  end.

(** One block of the "Atribuições" list of the form. *)
Record FormRow := mkFormRow {
  frow_function : string;
  frow_required : nat;
  frow_selected : list string;
  frow_count : nat;
  frow_warning : bool   (* "Você selecionou mais pessoas do que o necessário!" *)
}.

Definition render_form_row (day_type : string) (a : Assignment) : FormRow :=
  let required := getRequiredCount (function_type a) day_type in
  {| frow_function := function_type a;
     frow_required := required;
     frow_selected := user_ids a;
     frow_count := length (user_ids a);
     frow_warning := (required <? length (user_ids a))%nat |}.


(** [onClick] of "Cancelar" in the schedule form. *)
Definition cancelClick (s : State) : State :=
  {| heap := heap s;
     schedules := schedules s;
     editingSchedule := None;
     scheduleForm := scheduleForm s;
     showScheduleForm := false |}.

(** The options of the multiple select of a role:
    [users.filter(u => u.role === 'user')], each with [value={user.id}]. *)
Definition assignment_options (users : list User) : list string :=
  map user_id (List.filter (fun u => String.eqb (user_role u) "user") users).

(** [Array.from(e.target.selectedOptions, option => option.value)]: the
    values of the options that are selected, in document order;
    [selected] tells for each option whether it is. *)
Fixpoint selectedValues (options : list string) (selected : list bool)
    : list string :=
  match options, selected with
  | o :: options', b :: selected' =>
      if b then o :: selectedValues options' selected'
      else selectedValues options' selected'
  | _, _ => []
  end.

(** [onChange] of the select of the assignment at [index]. *)
Definition selectChange (users : list User) (index : nat)
    (selected : list bool) (s : State) : completion State :=
  handleAssignmentChange index
    (selectedValues (assignment_options users) selected) s.

(** What can happen to the schedule part of the panel: the clicks and
    changes of the form, "Editar" on the schedule at position [k] of the
    list, the answer to a save, and schedules arriving from
    [fetchSchedules]. *)
Inductive Event :=
  | NewScheduleClick
  | DateChange (value : string)
  | DayTypeChange (dayType : string)
  | AssignmentChange (assignmentIndex : nat) (userIds : list string)
  | EditClick (k : nat)
  | CancelClick
  | SaveAnswered (answer : option string)
  | SchedulesFetched (data : list (Schedule Assignment)).

(** A handler that throws leaves the state as it was; "Editar" exists
    for the listed schedules only. *)
Definition step (e : Event) (s : State) : State :=
  match e with
  | NewScheduleClick => newScheduleClick s
  | DateChange value => dateChange value s
  | DayTypeChange dayType => handleDayTypeChange dayType s
  | AssignmentChange i userIds =>
      match handleAssignmentChange i userIds s with
      | Normal s' => s'
      | Throw _ => s
      end
  | EditClick k =>
      match schedules s !! k with
      | Some schedule => handleEditSchedule schedule s
      | None => s
      end
  | CancelClick => cancelClick s
  | SaveAnswered answer => snd (handleCreateSchedule_done answer s)
  | SchedulesFetched data => setSchedules data s
  end.

Definition run (events : list Event) (s : State) : State :=
  fold_left (fun s e => step e s) events s.

(** The events of the form that leave [editingSchedule] alone. *)
Definition is_form_edit (e : Event) : bool :=
  match e with
  | DateChange _ | DayTypeChange _ | AssignmentChange _ _ => true
  | _ => false
  end.

(** Every reference of an array points into the heap, and no two
    references of the array are the same. *)
Definition valid_refs (h : list Assignment) (ls : list loc) : Prop :=
  Forall (fun l => l < length h) ls /\ NoDup ls.

(** The arrays of the form, of the schedule under edit and of the listed
    schedules are all valid. *)
Definition well_formed (s : State) : Prop :=
  valid_refs (heap s) (form_assignments (scheduleForm s))
  /\ (forall e, editingSchedule s = Some e ->
                valid_refs (heap s) (assignments e))
  /\ Forall (fun sch => valid_refs (heap s) (assignments sch)) (schedules s).

End AdminPanel.

(** ** The service behind the API

    The handlers of [/schedules] and [/schedule-response] are not part of
    the sources at hand; the front end only calls them.  This module
    follows the specification's sections 3, 4 and 6 instead. *)

Module Core.

(** Modelled from the spec: the closed enumerations of section 3 (the
    service's own type declarations are missing). *)
Inductive DayType := Wednesday | Friday | Saturday.
Inductive RoleType := Preaching | Cleaning | Worship | Welcome | DoorService.
Inductive Status := Pending | Accepted | Declined.

(** Modelled from the spec: the two transitions a caller may ask for,
    Pending to Accepted and Pending to Declined (section 4.3). *)
Inductive Decision := Accept | Decline.

(** Modelled from the spec: the error taxonomy of section 7. *)
Inductive Error :=
  ValidationError | NotFoundError | AuthorizationError | InvalidStateError.

Inductive result (A : Type) :=
  | Ok (a : A)
  | Err (e : Error).
Arguments Ok {A} _.
Arguments Err {A} _.

#[global] Instance DayType_eq_dec : EqDecision DayType.
Proof. solve_decision. Defined.
#[global] Instance RoleType_eq_dec : EqDecision RoleType.
Proof. solve_decision. Defined.
#[global] Instance Status_eq_dec : EqDecision Status.
Proof. solve_decision. Defined.

(** Modelled from the spec: [Response], [Assignment] and
    [ScheduleRecord] of section 3; timestamps are natural numbers. *)
Record Response := mkResponse {
  status : Status;
  reason : option string;
  recordedAt : nat
}.

Record Assignment := mkAssignment {
  roleType : RoleType;
  userIds : gset string;
  responses : gmap string Response
}.

Record ScheduleRecord := mkScheduleRecord {
  id : string;
  date : string;
  dayType : DayType;
  assignments : list Assignment
}.

(** Modelled from the spec: the fixed table of section 3 behind
    [requirementsFor] (section 4.1), on the closed enumeration. *)
Definition RoleRequirementTable (d : DayType) : list (RoleType * nat) :=
  match d with
  | Wednesday | Saturday =>
      [(Preaching, 1); (Cleaning, 3); (Worship, 3); (Welcome, 1)]
  | Friday => [(Preaching, 1); (DoorService, 1)]
  end.

(** Modelled from the spec: recognition of the three day types of
    section 3 (the service's parser is missing), on the identifiers the
    front end sends. *)
Definition parseDayType (s : string) : option DayType :=
  if String.eqb s "wednesday" then Some Wednesday
  else if String.eqb s "friday" then Some Friday
  else if String.eqb s "saturday" then Some Saturday
  else None.


(** Modelled from the spec: the terminal state a decision leads to
    (section 4.3). *)
Definition status_of_decision (d : Decision) : Status :=
  match d with Accept => Accepted | Decline => Declined end.

(** Modelled from the spec: the state of the tracker for one assignee.
    An entry is created as Pending when the user id enters [userIds]
    (section 3), so a listed user without an entry is in the initial
    state. *)
Definition status_of (a : Assignment) (u : string) : Status :=
  from_option status Pending (responses a !! u).

(** Modelled from the spec: the one assignment a record holds for a
    role (section 3), with its position. *)
Definition find_role (r : RoleType) (l : list Assignment)
    : option (nat * Assignment) :=
  list_find (fun a => roleType a = r) l.

(** Modelled from the spec: [recordResponse] of sections 4.3 and 6 (the
    handler of [POST /schedule-response] is missing).  The request names
    no user, as the front end sends it: the response recorded is the
    caller's own.  A missing schedule or role is a [NotFoundError]; a
    caller who is not among the role's [userIds] gets the
    [AuthorizationError] of section 8; a status other than Pending is an
    [InvalidStateError]; [reason] is kept for a refusal only.  A failure
    leaves the store as it was.  Event emission (section 4.4) is left
    out. *)
Definition recordResponse (now : nat) (scheduleId : string)
    (role : RoleType) (callerUserId : string) (d : Decision)
    (why : option string) (σ : gmap string ScheduleRecord)
    : result Assignment * gmap string ScheduleRecord :=
  match σ !! scheduleId with
  | None => (Err NotFoundError, σ)
  | Some rec =>
      match find_role role (assignments rec) with
      | None => (Err NotFoundError, σ)
      | Some (i, a) =>
          if decide (callerUserId ∈ userIds a) then
            match status_of a callerUserId with
            | Pending =>
                let r := mkResponse (status_of_decision d)
                           (match d with Decline => why | Accept => None end)
                           now in
                let a' := mkAssignment (roleType a) (userIds a)
                            (<[callerUserId := r]> (responses a)) in
                (Ok a',
                 <[scheduleId :=
                     mkScheduleRecord (id rec) (date rec) (dayType rec)
                       (<[i := a']> (assignments rec))]> σ)
            | _ => (Err InvalidStateError, σ)
            end
          else (Err AuthorizationError, σ)
      end
  end.

(** Modelled from the spec: the user ids a caller supplied for role [r]
    (section 4.2), over all entries naming it. *)
Definition supplied_for (r : RoleType)
    (supplied : list (RoleType * list string)) : gset string :=
  ⋃ ((fun p => list_to_set (snd p))
       <$> filter (fun p => fst p = r) supplied).

(** Modelled from the spec: the over-staffing warnings of section 4.2,
    the roles of the table that are given more user ids than required. *)
Definition over_staffed (table : list (RoleType * nat))
    (ids_for : RoleType -> gset string) : list RoleType :=
  omap (fun '(r, n) =>
          if decide (n < size (ids_for r)) then Some r else None)
       table.

(** Modelled from the spec: a response entry exists for exactly the
    listed users (section 3); entries already recorded stay, users who
    enter start Pending. *)
Definition responses_for (now : nat) (ids : gset string)
    (recorded : gmap string Response) : gmap string Response :=
  filter (fun kv => fst kv ∈ ids) recorded
  ∪ gset_to_gmap (mkResponse Pending None now) ids.

Section Builder.

(** The calendar-date parser of the service, which the specification
    leaves open. *)
Variable parseable_date : string -> bool.

(** Modelled from the spec: a date is rejected when empty or
    unparseable (section 4.2). *)
Definition valid_date (date : string) : bool :=
  negb (String.eqb date "") && parseable_date date.

(** Modelled from the spec: [create] of section 4.2 (the handler of
    [POST /schedules] is missing).  An empty or unparseable date and an
    unrecognised day type are [ValidationError]s; the roles are those
    of the table, in its order; supplied user ids are kept and start
    Pending, other roles start empty, roles outside the table are
    dropped; over-staffed roles are returned as warnings.  Event
    emission (section 4.4) is left out. *)
Definition createSchedule (now : nat) (newId date dayType : string)
    (supplied : list (RoleType * list string))
    (σ : gmap string ScheduleRecord)
    : result (ScheduleRecord * list RoleType) * gmap string ScheduleRecord :=
  if valid_date date then
    match parseDayType dayType with
    | None => (Err ValidationError, σ)
    | Some d =>
        let table := RoleRequirementTable d in
        let ids_for r := supplied_for r supplied in
        let l :=
          (fun '(r, _) =>
             mkAssignment r (ids_for r) (responses_for now (ids_for r) ∅))
            <$> table in
        let rec := mkScheduleRecord newId date d l in
        (Ok (rec, over_staffed table ids_for), <[newId := rec]> σ)
    end
  else (Err ValidationError, σ).


End Builder.

End Core.


(** ** Invariants the specification states for an assignment *)



(** ** Sample data *)

(** A Wednesday schedule as the API returns it: one preacher who has
    accepted, two people for cleaning who have not answered. *)
Definition wednesday_record : Schedule Assignment :=
  mkSchedule "s1" "2025-01-08" "wednesday"
    [ mkAssignment "pregacao" ["u1"] {[ "u1" := mkResponse "accepted" "" ]};
      mkAssignment "limpeza" ["u2"; "u3"] ∅;
      mkAssignment "louvor" [] ∅;
      mkAssignment "introdutoria" [] ∅ ].

(** The panel after [fetchSchedules] has loaded that schedule, and the
    schedule as the list holds it. *)
Definition loaded_state : AdminPanel.State :=
  AdminPanel.setSchedules [wednesday_record] AdminPanel.initial_state.

Definition wednesday_schedule : Schedule loc :=
  mkSchedule "s1" "2025-01-08" "wednesday" [0; 1; 2; 3].

(** The store of the service once the Wednesday schedule has been
    created with "u1" preaching and "u2", "u3" cleaning, and once "u1" has
    accepted. *)
Definition service_store : gmap string Core.ScheduleRecord :=
  snd (Core.createSchedule (fun _ => true) 0 "s1" "2025-01-08" "wednesday"
         [(Core.Preaching, ["u1"]); (Core.Cleaning, ["u2"; "u3"])] ∅).

Definition service_store_accepted : gmap string Core.ScheduleRecord :=
  snd (Core.recordResponse 1 "s1" Core.Preaching "u1" Core.Accept None
         service_store).

Definition preaching_accepted : Core.Assignment :=
  Core.mkAssignment Core.Preaching {[ "u1" ]}
    {[ "u1" := Core.mkResponse Core.Accepted None 1 ]}.

(** A new form switched to Friday, and the same form once "u1" has been
    selected for its first role. *)
Definition friday_form : AdminPanel.State :=
  AdminPanel.handleDayTypeChange "friday"
    (AdminPanel.newScheduleClick AdminPanel.initial_state).

Definition friday_form_u1 : AdminPanel.State :=
  {| AdminPanel.heap :=
       alter (set_user_ids ["u1"]) 4 (AdminPanel.heap friday_form);
     AdminPanel.schedules := [];
     AdminPanel.editingSchedule := None;
     AdminPanel.scheduleForm := AdminPanel.mkScheduleForm "" "friday" [4; 5];
     AdminPanel.showScheduleForm := true |}.

(** A new Wednesday form dated 2025-01-22 in which four people have been
    selected for cleaning, which requires three. *)
Definition overstaffed_form : AdminPanel.State :=
  {| AdminPanel.heap :=
       alter (set_user_ids ["u2"; "u3"; "u4"; "u5"]) 1
         (AdminPanel.initializeScheduleAssignments "wednesday");
     AdminPanel.schedules := [];
     AdminPanel.editingSchedule := None;
     AdminPanel.scheduleForm :=
       AdminPanel.mkScheduleForm "2025-01-22" "wednesday" [0; 1; 2; 3];
     AdminPanel.showScheduleForm := true |}.

(** The users of a small congregation: the administrator and two
    volunteers. *)
Definition sample_users : list User :=
  [ mkUser "a1" "admin" "Administrador" "admin@example.org" "admin";
    mkUser "u1" "ana" "Ana" "ana@example.org" "user";
    mkUser "u2" "rui" "Rui" "rui@example.org" "user" ].

(** The Friday form once the second option of the select of its first
    role has been selected. *)
Definition friday_form_selected : AdminPanel.State :=
  match AdminPanel.selectChange sample_users 0 [false; true] friday_form with
  | Normal s => s
  | Throw _ => friday_form
  end.

(** * Properties *)

(** ** String comparisons *)

Lemma eqb_false_of_ne (a b : string) : a <> b -> String.eqb a b = false.
Proof. intros H. apply String.eqb_neq. exact H. Qed.

(** ** Role requirements *)

Lemma getRequiredCount_copies (functionType dayType : string) :
  AdminPanel.getRequiredCount functionType dayType
  = Dashboard.getRequiredCount functionType dayType.
Proof. reflexivity. Qed.

(** The sections of the card are headed by the functions of the
    requirements lookup and show its counts. *)
Lemma ScheduleCard_requirements (current_user : string)
    (schedule : Schedule Assignment) :
  map (fun sec => (sec_function sec, sec_required sec))
      (Dashboard.ScheduleCard current_user schedule)
  = map (fun p => (fst p, Some (snd p)))
        (Dashboard.requirementsFor (day_type schedule)).
Proof.
  unfold Dashboard.ScheduleCard, Dashboard.requirementsFor.
  rewrite !map_map. apply map_ext. intros f.
  unfold Dashboard.render_function.
  destruct (js_find _ _); reflexivity.
Qed.

(** C1: for Wednesday and for Saturday the requirements lookup returns
    exactly Preaching 1, Cleaning 3, Worship 3, Welcome 1, in this order;
    for Friday exactly Preaching 1 and DoorService 1; the copy of
    [getRequiredCount] in the administration panel gives the same
    counts. *)
Theorem requirementsFor_table :
  Dashboard.requirementsFor "wednesday"
    = [("pregacao", 1); ("limpeza", 3); ("louvor", 3); ("introdutoria", 1)]
  /\ Dashboard.requirementsFor "saturday"
    = [("pregacao", 1); ("limpeza", 3); ("louvor", 3); ("introdutoria", 1)]
  /\ Dashboard.requirementsFor "friday"
    = [("pregacao", 1); ("portaria", 1)]
  /\ (forall functionType dayType,
        AdminPanel.getRequiredCount functionType dayType
        = Dashboard.getRequiredCount functionType dayType).
Proof. repeat split. Qed.

(** C8, as the specification states it, fails: for the unrecognised day
    type "sunday" the lookup returns, and what it returns is the empty
    list. *)
Lemma requirementsFor_sunday_returns :
  "sunday" <> "wednesday" /\ "sunday" <> "friday" /\ "sunday" <> "saturday"
  /\ Dashboard.getAllFunctions "sunday" = []
  /\ Dashboard.requirementsFor "sunday" = [].
Proof. repeat split; discriminate. Qed.

(** C8, amended: for a day type that is none of wednesday, friday and
    saturday the lookup does not fail; [getAllFunctions] returns the
    empty list, so there are no requirements, the card shows no role
    section and [initializeScheduleAssignments] creates no assignment. *)
Theorem unrecognized_dayType_is_empty (dayType : string) :
  dayType <> "wednesday" -> dayType <> "friday" -> dayType <> "saturday" ->
  Dashboard.getAllFunctions dayType = []
  /\ Dashboard.requirementsFor dayType = []
  /\ AdminPanel.initializeScheduleAssignments dayType = []
  /\ forall current_user schedule,
       day_type schedule = dayType ->
       Dashboard.ScheduleCard current_user schedule = [].
Proof.
  intros Hw Hf Hs.
  assert (Hall : Dashboard.getAllFunctions dayType = []).
  { unfold Dashboard.getAllFunctions.
    rewrite !eqb_false_of_ne by assumption. reflexivity. }
  repeat split.
  - exact Hall.
  - unfold Dashboard.requirementsFor. rewrite Hall. reflexivity.
  - unfold AdminPanel.initializeScheduleAssignments.
    rewrite !eqb_false_of_ne by assumption. reflexivity.
  - intros current_user schedule Hd. unfold Dashboard.ScheduleCard.
    rewrite Hd, Hall. reflexivity.
Qed.

Lemma unrecognized_dayType_is_empty_witness :
  Dashboard.getAllFunctions "sunday" = []
  /\ Dashboard.requirementsFor "sunday" = []
  /\ AdminPanel.initializeScheduleAssignments "sunday" = []
  /\ forall current_user schedule,
       day_type schedule = "sunday" ->
       Dashboard.ScheduleCard current_user schedule = [].
Proof.
  apply (unrecognized_dayType_is_empty "sunday"); discriminate.
Defined.

(** C9: [getRequiredCount], in both components, does not depend on its
    [dayType] argument, and for a function type outside pregacao,
    introdutoria, portaria, limpeza and louvor it returns 1. *)
Theorem getRequiredCount_ignores_dayType (functionType d1 d2 : string) :
  Dashboard.getRequiredCount functionType d1
    = Dashboard.getRequiredCount functionType d2
  /\ AdminPanel.getRequiredCount functionType d1
    = AdminPanel.getRequiredCount functionType d2
  /\ (functionType <> "pregacao" -> functionType <> "introdutoria" ->
      functionType <> "portaria" -> functionType <> "limpeza" ->
      functionType <> "louvor" ->
      Dashboard.getRequiredCount functionType d1 = 1
      /\ AdminPanel.getRequiredCount functionType d1 = 1).
Proof.
  split; [reflexivity | split; [reflexivity |]].
  intros H1 H2 H3 H4 H5.
  unfold AdminPanel.getRequiredCount, Dashboard.getRequiredCount.
  rewrite !eqb_false_of_ne by assumption. split; reflexivity.
Qed.

Lemma getRequiredCount_ignores_dayType_witness :
  Dashboard.getRequiredCount "recepcao" "friday"
    = Dashboard.getRequiredCount "recepcao" "domingo"
  /\ AdminPanel.getRequiredCount "recepcao" "friday"
    = AdminPanel.getRequiredCount "recepcao" "domingo"
  /\ Dashboard.getRequiredCount "recepcao" "friday" = 1
  /\ AdminPanel.getRequiredCount "recepcao" "friday" = 1.
Proof.
  destruct (getRequiredCount_ignores_dayType "recepcao" "friday" "domingo")
    as (Ha & Hb & Hc).
  split; [exact Ha | split; [exact Hb |]].
  apply Hc; discriminate.
Defined.

(** ** The heap of assignment objects *)

Lemma deref_alloc (h objs : list Assignment) :
  deref (h ++ objs)%list (seq (length h) (length objs)) = Some objs.
Proof.
  revert h. induction objs as [| a objs IH]; intros h; [reflexivity |].
  cbn [length seq deref].
  rewrite lookup_app_r by lia. rewrite Nat.sub_diag. cbn [lookup list_lookup].
  specialize (IH (h ++ [a])%list).
  rewrite <- app_assoc, length_app in IH. cbn [length app] in IH.
  rewrite Nat.add_1_r in IH. rewrite IH. reflexivity.
Qed.

(** Allocation leaves the cells that exist as they are. *)
Lemma deref_app_l (h h' : list Assignment) (ls : list loc)
    (objs : list Assignment) :
  deref h ls = Some objs -> deref (h ++ h')%list ls = Some objs.
Proof.
  revert objs. induction ls as [| l ls IH]; intros objs; [trivial |].
  cbn [deref]. destruct (h !! l) as [a |] eqn:Hl; [| discriminate].
  destruct (deref h ls) as [rest |]; [| discriminate].
  intros [= <-]. rewrite (lookup_app_l_Some _ _ _ _ Hl).
  rewrite (IH rest eq_refl). reflexivity.
Qed.

(** A write to a cell no reference points to is not seen. *)
Lemma deref_alter_other (f : Assignment -> Assignment)
    (h : list Assignment) (ls : list loc) (l : loc) :
  l ∉ ls -> deref (alter f l h) ls = deref h ls.
Proof.
  induction ls as [| l0 ls IH]; [reflexivity |].
  intros Hl. apply not_elem_of_cons in Hl as [Hne Hl].
  cbn [deref]. rewrite list_lookup_alter_ne by exact Hne.
  rewrite (IH Hl). reflexivity.
Qed.

(** A write through one of several distinct references is seen at
    exactly its position. *)
Lemma deref_alter (f : Assignment -> Assignment) (h : list Assignment)
    (ls : list loc) (objs : list Assignment) (i : nat) (l : loc) :
  NoDup ls -> ls !! i = Some l -> deref h ls = Some objs ->
  deref (alter f l h) ls = Some (alter f i objs).
Proof.
  intros Hnd. revert i objs.
  induction Hnd as [| l0 ls Hl0 Hnd IH]; intros i objs Hi; [discriminate |].
  cbn [deref]. destruct (h !! l0) as [a |] eqn:Ha; [| discriminate].
  destruct (deref h ls) as [rest |] eqn:Hrest; [| discriminate].
  intros [= <-]. destruct i as [| i]; cbn in Hi.
  - injection Hi as ->.
    rewrite list_lookup_alter_eq, Ha, (deref_alter_other f h ls l Hl0), Hrest.
    reflexivity.
  - assert (Hne : l <> l0).
    { intros ->. apply Hl0. apply list_elem_of_lookup. eauto. }
    rewrite list_lookup_alter_ne by exact Hne. rewrite Ha.
    rewrite (IH i rest Hi eq_refl). reflexivity.
Qed.

(** ** A new schedule form *)

Lemma initializeScheduleAssignments_roles (dayType : string) :
  AdminPanel.initializeScheduleAssignments dayType
  = map (fun functionType => mkAssignment functionType [] ∅)
        (Dashboard.getAllFunctions dayType).
Proof.
  unfold AdminPanel.initializeScheduleAssignments, Dashboard.getAllFunctions.
  destruct (String.eqb dayType "wednesday" || String.eqb dayType "saturday");
    [reflexivity |].
  destruct (String.eqb dayType "friday"); reflexivity.
Qed.

Lemma handleDayTypeChange_form (dayType : string) (s : AdminPanel.State) :
  let s' := AdminPanel.handleDayTypeChange dayType s in
  AdminPanel.form_date (AdminPanel.scheduleForm s')
    = AdminPanel.form_date (AdminPanel.scheduleForm s)
  /\ AdminPanel.form_day_type (AdminPanel.scheduleForm s') = dayType
  /\ AdminPanel.heap s'
     = (AdminPanel.heap s ++ AdminPanel.initializeScheduleAssignments dayType)%list
  /\ deref (AdminPanel.heap s')
           (AdminPanel.form_assignments (AdminPanel.scheduleForm s'))
     = Some (AdminPanel.initializeScheduleAssignments dayType)
  /\ AdminPanel.editingSchedule s' = AdminPanel.editingSchedule s
  /\ AdminPanel.schedules s' = AdminPanel.schedules s.
Proof.
  unfold AdminPanel.handleDayTypeChange, alloc_all. cbn.
  repeat split. apply deref_alloc.
Qed.

(** C2: opening the form for a new schedule, entering any date and
    choosing any day type, with no assignment entered, leaves a form (the
    record then posted) whose assignments are exactly one per role the
    day type requires, in the canonical order, each with an empty
    [user_ids] list and an empty [responses] mapping. *)
Theorem new_schedule_has_required_roles (s : AdminPanel.State)
    (date dayType : string) :
  let s' := AdminPanel.handleDayTypeChange dayType
              (AdminPanel.dateChange date (AdminPanel.newScheduleClick s)) in
  let empty := map (fun functionType => mkAssignment functionType [] ∅)
                   (Dashboard.getAllFunctions dayType) in
  AdminPanel.initializeScheduleAssignments dayType = empty
  /\ deref (AdminPanel.heap s')
           (AdminPanel.form_assignments (AdminPanel.scheduleForm s'))
     = Some empty
  /\ AdminPanel.handleCreateSchedule_request s'
     = Some (AdminPanel.POST_schedule (AdminPanel.mkPayload date dayType empty))
  /\ deref (AdminPanel.heap (AdminPanel.dateChange date
                               (AdminPanel.newScheduleClick s)))
           (AdminPanel.form_assignments
              (AdminPanel.scheduleForm
                 (AdminPanel.dateChange date (AdminPanel.newScheduleClick s))))
     = Some (map (fun functionType => mkAssignment functionType [] ∅)
                 (Dashboard.getAllFunctions "wednesday")).
Proof.
  intros s' empty.
  pose proof (initializeScheduleAssignments_roles dayType) as Hroles.
  fold empty in Hroles.
  destruct (handleDayTypeChange_form dayType
              (AdminPanel.dateChange date (AdminPanel.newScheduleClick s)))
    as (Hdate & Hday & _ & Hderef & Hedit & _).
  fold s' in Hdate, Hday, Hderef, Hedit. rewrite Hroles in Hderef.
  repeat split.
  - exact Hroles.
  - exact Hderef.
  - unfold AdminPanel.handleCreateSchedule_request.
    rewrite Hderef, Hdate, Hday, Hedit. reflexivity.
  - unfold AdminPanel.newScheduleClick, AdminPanel.dateChange, alloc_all. cbn.
    apply (deref_alloc (AdminPanel.heap s)
             (AdminPanel.initializeScheduleAssignments "wednesday")).
Qed.

(** ** Editing assignments *)

Example loaded_state_schedules :
  AdminPanel.schedules loaded_state = [wednesday_schedule]
  /\ deref (AdminPanel.heap loaded_state) (assignments wednesday_schedule)
     = Some (assignments wednesday_record).
Proof. split; reflexivity. Qed.




Lemma deref_length (h : list Assignment) (ls : list loc)
    (objs : list Assignment) :
  deref h ls = Some objs -> length objs = length ls.
Proof.
  revert objs. induction ls as [| l ls IH]; intros objs; cbn [deref].
  - intros [= <-]. reflexivity.
  - destruct (h !! l); [| discriminate].
    destruct (deref h ls) as [rest |]; [| discriminate].
    intros [= <-]. cbn. rewrite (IH rest eq_refl). reflexivity.
Qed.

(** Within the form the change is seen at the index given, and only
    there. *)
Lemma handleAssignmentChange_form (assignmentIndex : nat)
    (userIds : list string) (s : AdminPanel.State) (objs : list Assignment) :
  NoDup (AdminPanel.form_assignments (AdminPanel.scheduleForm s)) ->
  deref (AdminPanel.heap s)
        (AdminPanel.form_assignments (AdminPanel.scheduleForm s)) = Some objs ->
  assignmentIndex < length objs ->
  exists s',
    AdminPanel.handleAssignmentChange assignmentIndex userIds s = Normal s'
    /\ deref (AdminPanel.heap s')
             (AdminPanel.form_assignments (AdminPanel.scheduleForm s'))
       = Some (alter (set_user_ids userIds) assignmentIndex objs).
Proof.
  intros Hnd Hderef Hlt. unfold AdminPanel.handleAssignmentChange.
  rewrite (deref_length _ _ _ Hderef) in Hlt.
  destruct (lookup_lt_is_Some_2 _ _ Hlt) as [l Hl]. rewrite Hl.
  eexists. split; [reflexivity |].
  cbn [AdminPanel.heap AdminPanel.scheduleForm AdminPanel.form_assignments].
  apply deref_alter; assumption.
Qed.

(** An index past the end of the form's array makes the handler throw. *)
Lemma handleAssignmentChange_out_of_range (assignmentIndex : nat)
    (userIds : list string) (s : AdminPanel.State) :
  length (AdminPanel.form_assignments (AdminPanel.scheduleForm s))
    <= assignmentIndex ->
  AdminPanel.handleAssignmentChange assignmentIndex userIds s = Throw TypeError.
Proof.
  intros Hge. unfold AdminPanel.handleAssignmentChange.
  rewrite (lookup_ge_None_2 _ _ Hge). reflexivity.
Qed.

(** The form of a schedule under edit shares its objects with the
    schedule: a selection made in the form shows in the listed schedule
    before anything is saved. *)
Lemma handleAssignmentChange_aliases_schedule (assignmentIndex : nat)
    (userIds : list string) (schedule : Schedule loc) (s : AdminPanel.State)
    (objs : list Assignment) :
  NoDup (assignments schedule) ->
  deref (AdminPanel.heap s) (assignments schedule) = Some objs ->
  assignmentIndex < length objs ->
  exists s',
    AdminPanel.handleAssignmentChange assignmentIndex userIds
      (AdminPanel.handleEditSchedule schedule s) = Normal s'
    /\ AdminPanel.schedules s' = AdminPanel.schedules s
    /\ deref (AdminPanel.heap s') (assignments schedule)
       = Some (alter (set_user_ids userIds) assignmentIndex objs).
Proof.
  intros Hnd Hderef Hlt.
  destruct (handleAssignmentChange_form assignmentIndex userIds
              (AdminPanel.handleEditSchedule schedule s) objs Hnd Hderef Hlt)
    as (s' & Hs' & Hd).
  exists s'. split; [exact Hs' |].
  unfold AdminPanel.handleAssignmentChange in Hs'. cbn in Hs'.
  destruct (assignments schedule !! assignmentIndex); [| discriminate].
  injection Hs' as <-. split; [reflexivity | exact Hd].
Qed.

(** ** Changing the day type of a schedule *)

(** C5, as the specification states it, fails.  Preaching is required on
    Wednesday and on Friday, and the loaded Wednesday schedule has "u1"
    preaching; after the schedule is opened for editing and switched to
    Friday, the form, and the update it sends, holds an empty Preaching
    assignment. *)
Lemma dayType_change_drops_common_role :
  In "pregacao" (Dashboard.getAllFunctions "wednesday")
  /\ In "pregacao" (Dashboard.getAllFunctions "friday")
  /\ AdminPanel.heap loaded_state !! 0
     = Some (mkAssignment "pregacao" ["u1"] {[ "u1" := mkResponse "accepted" "" ]})
  /\ deref
       (AdminPanel.heap
          (AdminPanel.handleDayTypeChange "friday"
             (AdminPanel.handleEditSchedule wednesday_schedule loaded_state)))
       (AdminPanel.form_assignments
          (AdminPanel.scheduleForm
             (AdminPanel.handleDayTypeChange "friday"
                (AdminPanel.handleEditSchedule wednesday_schedule loaded_state))))
     = Some [ mkAssignment "pregacao" [] ∅; mkAssignment "portaria" [] ∅ ]
  /\ AdminPanel.handleCreateSchedule_request
       (AdminPanel.handleDayTypeChange "friday"
          (AdminPanel.handleEditSchedule wednesday_schedule loaded_state))
     = Some (AdminPanel.PUT_schedule "s1"
               (AdminPanel.mkPayload "2025-01-08" "friday"
                  [ mkAssignment "pregacao" [] ∅; mkAssignment "portaria" [] ∅ ])).
Proof. repeat split; cbn; auto. Qed.

(** C5, amended: changing the day type of a schedule under edit builds
    the whole assignment list anew from the new day type.  The form, and
    the update it sends, holds exactly one fresh assignment per role the
    new day type requires, each with empty [user_ids] and [responses]:
    roles no longer required are gone, roles newly required are empty,
    and roles required by both day types are empty as well.  The objects
    of the schedule itself are not touched. *)
Theorem dayType_change_resets_assignments (schedule : Schedule loc)
    (dayType : string) (s : AdminPanel.State) :
  let s' := AdminPanel.handleDayTypeChange dayType
              (AdminPanel.handleEditSchedule schedule s) in
  let empty := map (fun functionType => mkAssignment functionType [] ∅)
                   (Dashboard.getAllFunctions dayType) in
  deref (AdminPanel.heap s')
        (AdminPanel.form_assignments (AdminPanel.scheduleForm s'))
    = Some empty
  /\ AdminPanel.handleCreateSchedule_request s'
     = Some (AdminPanel.PUT_schedule (id schedule)
               (AdminPanel.mkPayload (date schedule) dayType empty))
  /\ AdminPanel.heap s' = (AdminPanel.heap s ++ empty)%list
  /\ forall objs, deref (AdminPanel.heap s) (assignments schedule) = Some objs ->
                  deref (AdminPanel.heap s') (assignments schedule) = Some objs.
Proof.
  intros s' empty.
  destruct (handleDayTypeChange_form dayType
              (AdminPanel.handleEditSchedule schedule s))
    as (Hdate & Hday & Hheap & Hderef & Hedit & _).
  fold s' in Hdate, Hday, Hheap, Hderef, Hedit.
  rewrite initializeScheduleAssignments_roles in Hderef, Hheap.
  fold empty in Hderef, Hheap.
  split; [exact Hderef |]. split; [| split].
  - unfold AdminPanel.handleCreateSchedule_request.
    rewrite Hderef, Hdate, Hday, Hedit. reflexivity.
  - exact Hheap.
  - intros objs Hobjs. rewrite Hheap. apply deref_app_l. exact Hobjs.
Qed.

Lemma dayType_change_resets_assignments_witness :
  deref (AdminPanel.heap loaded_state) (assignments wednesday_schedule)
    = Some (assignments wednesday_record)
  /\ deref
       (AdminPanel.heap
          (AdminPanel.handleDayTypeChange "friday"
             (AdminPanel.handleEditSchedule wednesday_schedule loaded_state)))
       (assignments wednesday_schedule)
     = Some (assignments wednesday_record).
Proof.
  split; [reflexivity |].
  apply (dayType_change_resets_assignments wednesday_schedule "friday"
           loaded_state).
  reflexivity.
Defined.

(** What is selected after the change of day type is what the form then
    holds and sends. *)
Lemma dayType_change_then_selection (dayType : string) (s : AdminPanel.State)
    (assignmentIndex : nat) (userIds : list string) :
  let empty := map (fun functionType => mkAssignment functionType [] ∅)
                   (Dashboard.getAllFunctions dayType) in
  assignmentIndex < length empty ->
  exists s',
    AdminPanel.handleAssignmentChange assignmentIndex userIds
      (AdminPanel.handleDayTypeChange dayType s) = Normal s'
    /\ deref (AdminPanel.heap s')
             (AdminPanel.form_assignments (AdminPanel.scheduleForm s'))
       = Some (alter (set_user_ids userIds) assignmentIndex empty).
Proof.
  intros empty Hlt.
  destruct (handleDayTypeChange_form dayType s) as (_ & _ & _ & Hderef & _).
  rewrite initializeScheduleAssignments_roles in Hderef. fold empty in Hderef.
  apply handleAssignmentChange_form; [| exact Hderef | exact Hlt].
  unfold AdminPanel.handleDayTypeChange, alloc_all.
  cbn [AdminPanel.scheduleForm AdminPanel.form_assignments].
  apply NoDup_seq.
Qed.

(** ** The two versions of the schedule card *)

Lemma Dashboard_ScheduleCard_roles (current_user : string)
    (schedule : Schedule Assignment) :
  map sec_function (Dashboard.ScheduleCard current_user schedule)
  = Dashboard.getAllFunctions (day_type schedule).
Proof.
  unfold Dashboard.ScheduleCard. rewrite map_map.
  rewrite <- (map_id (Dashboard.getAllFunctions (day_type schedule))) at 2.
  apply map_ext. intros f. unfold Dashboard.render_function.
  destruct (js_find _ _); reflexivity.
Qed.

Lemma LegacyApp_ScheduleCard_roles (current_user : string)
    (schedule : Schedule Assignment) :
  map sec_function (LegacyApp.ScheduleCard current_user schedule)
  = map function_type (assignments schedule).
Proof.
  unfold LegacyApp.ScheduleCard. rewrite map_map. reflexivity.
Qed.

(** C10, as stated, fails: for a Wednesday record that holds no
    assignment the card of part_002 shows the four required roles and the
    card of App.js shows none. *)
Lemma ScheduleCard_versions_differ :
  map sec_function
      (Dashboard.ScheduleCard "u1" (mkSchedule "s2" "2025-01-15" "wednesday" []))
    = ["pregacao"; "limpeza"; "louvor"; "introdutoria"]
  /\ map sec_function
       (LegacyApp.ScheduleCard "u1" (mkSchedule "s2" "2025-01-15" "wednesday" []))
     = [].
Proof. split; reflexivity. Qed.

Lemma getAllFunctions_NoDup (dayType : string) :
  List.NoDup (Dashboard.getAllFunctions dayType).
Proof.
  unfold Dashboard.getAllFunctions.
  destruct (String.eqb dayType "wednesday" || String.eqb dayType "saturday").
  - repeat constructor; cbn; intuition discriminate.
  - destruct (String.eqb dayType "friday");
      repeat constructor; cbn; intuition discriminate.
Qed.

(** Where function types do not repeat, [find] by function type returns
    the assignment itself. *)
Lemma find_by_function_type (l : list Assignment) (a : Assignment) :
  List.NoDup (map function_type l) -> In a l ->
  js_find (fun x => String.eqb (function_type x) (function_type a)) l = Some a.
Proof.
  unfold js_find. induction l as [| b l IH]; cbn [map find In]; [tauto |].
  intros Hnd Hin. apply List.NoDup_cons_iff in Hnd as [Hb Hnd].
  destruct Hin as [-> | Hin].
  - rewrite String.eqb_refl. reflexivity.
  - destruct (String.eqb_spec (function_type b) (function_type a)) as [Heq | _].
    + exfalso. apply Hb. rewrite Heq. apply in_map. exact Hin.
    + apply IH; assumption.
Qed.

Lemma render_function_of_assignment (current_user : string)
    (schedule : Schedule Assignment) (a : Assignment) :
  List.NoDup (map function_type (assignments schedule)) ->
  In a (assignments schedule) ->
  let new := Dashboard.render_function current_user schedule (function_type a) in
  let old := LegacyApp.render_assignment current_user schedule a in
  (sec_function new, sec_count new, sec_rows new)
  = (sec_function old, sec_count old, sec_rows old).
Proof.
  intros Hnd Hin. unfold Dashboard.render_function.
  rewrite (find_by_function_type _ _ Hnd Hin). cbn.
  destruct (user_ids a); reflexivity.
Qed.

(** C10, amended: the two cards show the same role sections, in the same
    order, exactly for the records whose assignments carry the function
    types of [getAllFunctions(day_type)] in that order; for these records
    the sections also agree on the number of people and on the rows of
    people they list.  For any other record the card of part_002 shows
    the required roles and the card of App.js the assignments present. *)
Theorem ScheduleCard_versions_agree (current_user : string)
    (schedule : Schedule Assignment) :
  (map sec_function (Dashboard.ScheduleCard current_user schedule)
   = map sec_function (LegacyApp.ScheduleCard current_user schedule)
   <-> map function_type (assignments schedule)
       = Dashboard.getAllFunctions (day_type schedule))
  /\ (map function_type (assignments schedule)
      = Dashboard.getAllFunctions (day_type schedule) ->
      map (fun sec => (sec_function sec, sec_count sec, sec_rows sec))
          (Dashboard.ScheduleCard current_user schedule)
      = map (fun sec => (sec_function sec, sec_count sec, sec_rows sec))
            (LegacyApp.ScheduleCard current_user schedule)).
Proof.
  split.
  - rewrite Dashboard_ScheduleCard_roles, LegacyApp_ScheduleCard_roles.
    split; intros H; symmetry; exact H.
  - intros Hroles.
    assert (Hnd : List.NoDup (map function_type (assignments schedule))).
    { rewrite Hroles. apply getAllFunctions_NoDup. }
    unfold Dashboard.ScheduleCard, LegacyApp.ScheduleCard.
    rewrite <- Hroles, !map_map. apply map_ext_in. intros a Hin.
    apply (render_function_of_assignment current_user schedule a Hnd Hin).
Qed.

Lemma ScheduleCard_versions_agree_witness :
  map (fun sec => (sec_function sec, sec_count sec, sec_rows sec))
      (Dashboard.ScheduleCard "u2" wednesday_record)
  = map (fun sec => (sec_function sec, sec_count sec, sec_rows sec))
        (LegacyApp.ScheduleCard "u2" wednesday_record).
Proof.
  apply (ScheduleCard_versions_agree "u2" wednesday_record).
  reflexivity.
Defined.

(** ** Where the card offers the response buttons *)

Lemma row_buttons_guard (current_user schedule_id : string) (a : Assignment)
    (u : string) (req : ResponseRequest) :
  In req (row_buttons (render_user current_user schedule_id a u)) ->
  u = current_user /\ responses a !! u = None
  /\ req_schedule_id req = schedule_id
  /\ req_function_type req = function_type a.
Proof.
  unfold render_user. cbn [row_buttons].
  destruct (String.eqb_spec u current_user) as [-> | _]; cbn [andb]; [| intros []].
  destruct (responses a !! current_user) as [r |] eqn:Hr.
  - rewrite bool_decide_eq_true_2 by eauto. intros [].
  - rewrite bool_decide_eq_false_2 by (intros [? ?]; discriminate).
    cbn. intros [<- | [<- | []]]; auto.
Qed.

(** Every request the card of part_002 can send is for a role that lists
    the current user and holds no response of that user yet. *)
Lemma Dashboard_requests_guard (current_user : string)
    (schedule : Schedule Assignment) (req : ResponseRequest) :
  In req (card_requests (Dashboard.ScheduleCard current_user schedule)) ->
  req_schedule_id req = id schedule
  /\ exists a, In a (assignments schedule)
       /\ function_type a = req_function_type req
       /\ In current_user (user_ids a)
       /\ responses a !! current_user = None.
Proof.
  unfold card_requests, Dashboard.ScheduleCard.
  rewrite in_flat_map. intros (sec & Hsec & Hreq).
  apply in_map_iff in Hsec as (f & <- & _).
  unfold Dashboard.render_function in Hreq.
  destruct (js_find _ _) as [a |] eqn:Hfind; cbn [sec_rows] in Hreq.
  - apply find_some in Hfind as [Hin _].
    destruct (0 <? length (user_ids a))%nat; [| destruct Hreq].
    apply in_flat_map in Hreq as (row & Hrow & Hreq).
    apply in_map_iff in Hrow as (u & <- & Hu).
    apply row_buttons_guard in Hreq as (-> & Hnone & Hid & Hfn).
    split; [exact Hid |]. exists a. auto.
  - destruct Hreq.
Qed.

(** The same for the card of App.js. *)
Lemma LegacyApp_requests_guard (current_user : string)
    (schedule : Schedule Assignment) (req : ResponseRequest) :
  In req (card_requests (LegacyApp.ScheduleCard current_user schedule)) ->
  req_schedule_id req = id schedule
  /\ exists a, In a (assignments schedule)
       /\ function_type a = req_function_type req
       /\ In current_user (user_ids a)
       /\ responses a !! current_user = None.
Proof.
  unfold card_requests, LegacyApp.ScheduleCard.
  rewrite in_flat_map. intros (sec & Hsec & Hreq).
  apply in_map_iff in Hsec as (a & <- & Hin).
  cbn [LegacyApp.render_assignment sec_rows] in Hreq.
  apply in_flat_map in Hreq as (row & Hrow & Hreq).
  apply in_map_iff in Hrow as (u & <- & Hu).
  apply row_buttons_guard in Hreq as (-> & Hnone & Hid & Hfn).
  split; [exact Hid |]. exists a. auto.
Qed.

(** ** Recording a response *)

Lemma find_role_Some (r : Core.RoleType) (l : list Core.Assignment)
    (i : nat) (a : Core.Assignment) :
  Core.find_role r l = Some (i, a) ->
  l !! i = Some a /\ Core.roleType a = r.
Proof.
  unfold Core.find_role. intros H.
  apply list_find_Some in H as (Hi & Hr & _). auto.
Qed.

(** Replacing the assignment of a role by another of the same role keeps
    it the one found for that role. *)
Lemma find_role_insert (r : Core.RoleType) (l : list Core.Assignment)
    (i : nat) (a a' : Core.Assignment) :
  Core.find_role r l = Some (i, a) -> Core.roleType a' = r ->
  Core.find_role r (<[i := a']> l) = Some (i, a').
Proof.
  unfold Core.find_role. intros H Hr'.
  apply list_find_Some in H as (Hi & Hr & Hbefore).
  apply list_find_Some. split; [| split].
  - apply list_lookup_insert_eq. eapply lookup_lt_Some. exact Hi.
  - exact Hr'.
  - intros j y Hj Hlt. rewrite list_lookup_insert_ne in Hj by lia.
    eapply Hbefore; eassumption.
Qed.

Lemma status_of_decision_terminal (d : Core.Decision) :
  Core.status_of_decision d <> Core.Pending.
Proof. destruct d; discriminate. Qed.

(** A call for an assignee whose status is not Pending fails and changes
    nothing. *)
Lemma recordResponse_not_pending (now : nat) (scheduleId : string)
    (role : Core.RoleType) (callerUserId : string) (d : Core.Decision)
    (why : option string) (σ : gmap string Core.ScheduleRecord)
    (rec : Core.ScheduleRecord) (i : nat) (a : Core.Assignment) :
  σ !! scheduleId = Some rec ->
  Core.find_role role (Core.assignments rec) = Some (i, a) ->
  callerUserId ∈ Core.userIds a ->
  Core.status_of a callerUserId <> Core.Pending ->
  Core.recordResponse now scheduleId role callerUserId d why σ
  = (Core.Err Core.InvalidStateError, σ).
Proof.
  intros Hrec Hfind Hin Hst. unfold Core.recordResponse.
  rewrite Hrec, Hfind. rewrite decide_True by exact Hin.
  destruct (Core.status_of a callerUserId); congruence.
Qed.

(** C3: [recordResponse] succeeds only from Pending.  A call that
    succeeds found the caller Pending and leaves the caller in the
    terminal status asked for, which is what the store then holds; every
    further call for the same schedule, role and user fails with
    [InvalidStateError] and changes nothing; and from Accepted or Declined
    every call fails so, hence no way back to Pending nor across. *)
Theorem recordResponse_one_shot (now : nat) (scheduleId : string)
    (role : Core.RoleType) (callerUserId : string) (d : Core.Decision)
    (why : option string) (σ : gmap string Core.ScheduleRecord) :
  (forall a' σ',
     Core.recordResponse now scheduleId role callerUserId d why σ
       = (Core.Ok a', σ') ->
     (exists rec i a,
        σ !! scheduleId = Some rec
        /\ Core.find_role role (Core.assignments rec) = Some (i, a)
        /\ callerUserId ∈ Core.userIds a
        /\ Core.status_of a callerUserId = Core.Pending)
     /\ Core.status_of a' callerUserId = Core.status_of_decision d
     /\ (exists rec' i,
           σ' !! scheduleId = Some rec'
           /\ Core.find_role role (Core.assignments rec') = Some (i, a'))
     /\ forall now2 d2 why2,
          Core.recordResponse now2 scheduleId role callerUserId d2 why2 σ'
          = (Core.Err Core.InvalidStateError, σ'))
  /\ (forall rec i a,
        σ !! scheduleId = Some rec ->
        Core.find_role role (Core.assignments rec) = Some (i, a) ->
        callerUserId ∈ Core.userIds a ->
        Core.status_of a callerUserId <> Core.Pending ->
        Core.recordResponse now scheduleId role callerUserId d why σ
        = (Core.Err Core.InvalidStateError, σ)).
Proof.
  split; [| intros rec i a; apply recordResponse_not_pending].
  intros a' σ'. unfold Core.recordResponse at 1.
  destruct (σ !! scheduleId) as [rec |] eqn:Hrec; [| discriminate].
  destruct (Core.find_role role (Core.assignments rec)) as [[i a] |] eqn:Hfind;
    [| discriminate].
  destruct (decide (callerUserId ∈ Core.userIds a)) as [Hin |]; [| discriminate].
  destruct (Core.status_of a callerUserId) eqn:Hst; try discriminate.
  intros [= <- <-].
  destruct (find_role_Some _ _ _ _ Hfind) as [_ Hrole].
  assert (Hst' : Core.status_of
            (Core.mkAssignment (Core.roleType a) (Core.userIds a)
               (<[callerUserId :=
                    Core.mkResponse (Core.status_of_decision d)
                      match d with Core.Accept => None | Core.Decline => why end
                      now]> (Core.responses a)))
            callerUserId = Core.status_of_decision d).
  { unfold Core.status_of. cbn [Core.responses].
    rewrite lookup_insert_eq. reflexivity. }
  split; [exists rec, i, a; auto |]. split; [exact Hst' |].
  split.
  - eexists _, i. split; [apply lookup_insert_eq |].
    cbn [Core.assignments]. eapply find_role_insert; [exact Hfind | exact Hrole].
  - intros now2 d2 why2.
    eapply recordResponse_not_pending.
    + apply lookup_insert_eq.
    + cbn [Core.assignments].
      eapply find_role_insert; [exact Hfind | exact Hrole].
    + exact Hin.
    + rewrite Hst'. apply status_of_decision_terminal.
Qed.

Example service_store_lookup :
  service_store !! "s1"
  = Some (Core.mkScheduleRecord "s1" "2025-01-08" Core.Wednesday
            [ Core.mkAssignment Core.Preaching {[ "u1" ]}
                {[ "u1" := Core.mkResponse Core.Pending None 0 ]};
              Core.mkAssignment Core.Cleaning {[ "u2"; "u3" ]}
                {[ "u2" := Core.mkResponse Core.Pending None 0;
                   "u3" := Core.mkResponse Core.Pending None 0 ]};
              Core.mkAssignment Core.Worship ∅ ∅;
              Core.mkAssignment Core.Welcome ∅ ∅ ]).
Proof. vm_compute. reflexivity. Qed.

Lemma recordResponse_one_shot_witness :
  Core.status_of preaching_accepted "u1" = Core.Accepted
  /\ Core.recordResponse 2 "s1" Core.Preaching "u1" Core.Decline
       (Some "viagem") service_store_accepted
     = (Core.Err Core.InvalidStateError, service_store_accepted)
  /\ Core.recordResponse 3 "s1" Core.Preaching "u1" Core.Accept None
       service_store_accepted
     = (Core.Err Core.InvalidStateError, service_store_accepted).
Proof.
  destruct (recordResponse_one_shot 1 "s1" Core.Preaching "u1" Core.Accept
              None service_store) as [Hok _].
  destruct (Hok preaching_accepted service_store_accepted)
    as (_ & Hst & _ & Hagain); [vm_compute; reflexivity |].
  split; [exact Hst |]. split; [apply Hagain |].
  destruct (recordResponse_one_shot 3 "s1" Core.Preaching "u1" Core.Accept
              None service_store_accepted) as [_ Hterminal].
  apply (Hterminal
           (Core.mkScheduleRecord "s1" "2025-01-08" Core.Wednesday
              [ preaching_accepted;
                Core.mkAssignment Core.Cleaning {[ "u2"; "u3" ]}
                  {[ "u2" := Core.mkResponse Core.Pending None 0;
                     "u3" := Core.mkResponse Core.Pending None 0 ]};
                Core.mkAssignment Core.Worship ∅ ∅;
                Core.mkAssignment Core.Welcome ∅ ∅ ])
           0 preaching_accepted).
  - vm_compute. reflexivity.
  - vm_compute. reflexivity.
  - vm_compute. reflexivity.
  - vm_compute. discriminate.
Defined.



(** ** Over-staffing *)








Example overstaffed_form_reached :
  AdminPanel.handleAssignmentChange 1 ["u2"; "u3"; "u4"; "u5"]
    (AdminPanel.dateChange "2025-01-22"
       (AdminPanel.newScheduleClick AdminPanel.initial_state))
  = Normal overstaffed_form.
Proof. reflexivity. Qed.


(** * Further properties of the front end *)

(** ** What a schedule card shows *)

(** Every row of either card renders one listed user of one assignment
    of the record, under the role that heads its section. *)
Lemma section_rows_origin (current_user : string)
    (schedule : Schedule Assignment) (sec : CardSection) (row : UserRow) :
  In sec (Dashboard.ScheduleCard current_user schedule)
  \/ In sec (LegacyApp.ScheduleCard current_user schedule) ->
  In row (sec_rows sec) ->
  exists a u,
    In a (assignments schedule)
    /\ function_type a = sec_function sec
    /\ In u (user_ids a)
    /\ row = render_user current_user (id schedule) a u.
Proof.
  intros [Hsec | Hsec] Hrow.
  - unfold Dashboard.ScheduleCard in Hsec.
    apply in_map_iff in Hsec as (f & <- & _).
    unfold Dashboard.render_function in Hrow |- *.
    destruct (js_find _ _) as [a |] eqn:Hfind; cbn [sec_rows sec_function] in *;
      [| destruct Hrow].
    apply find_some in Hfind as [Hin Hf]. apply String.eqb_eq in Hf.
    destruct (0 <? length (user_ids a))%nat; [| destruct Hrow].
    apply in_map_iff in Hrow as (u & <- & Hu). exists a, u. auto.
  - unfold LegacyApp.ScheduleCard in Hsec.
    apply in_map_iff in Hsec as (a & <- & Hin).
    cbn [LegacyApp.render_assignment sec_rows sec_function] in *.
    apply in_map_iff in Hrow as (u & <- & Hu). exists a, u. auto.
Qed.

(** What the buttons of a rendered user are. *)
Lemma render_user_buttons (current_user schedule_id : string)
    (a : Assignment) (u : string) :
  row_buttons (render_user current_user schedule_id a u)
  = if String.eqb u current_user
    then match responses a !! u with
         | Some _ => []
         | None => [ mkResponseRequest schedule_id (function_type a) "accepted";
                     mkResponseRequest schedule_id (function_type a) "declined" ]
         end
    else [].
Proof.
  unfold render_user. cbn [row_buttons].
  destruct (String.eqb u current_user); [| reflexivity].
  destruct (responses a !! u) as [r |]; cbn [andb].
  - rewrite bool_decide_eq_true_2 by eauto. reflexivity.
  - rewrite bool_decide_eq_false_2 by (intros [? ?]; discriminate). reflexivity.
Qed.

(** X1: in every section of the part_002 card the count shown is the
    number of rows, people and vacant slots together fill the larger of
    that count and the required count (so an under-staffed role shows
    exactly the required number of slots and a full one no vacancy), and
    the "nobody assigned" note stands exactly where no row does. *)
Theorem ScheduleCard_slot_accounting (current_user : string)
    (schedule : Schedule Assignment) :
  Forall (fun sec =>
            sec_required sec
              = Some (Dashboard.getRequiredCount (sec_function sec)
                        (day_type schedule))
            /\ length (sec_rows sec) = sec_count sec
            /\ sec_count sec + sec_vacancies sec
               = Nat.max (sec_count sec)
                   (Dashboard.getRequiredCount (sec_function sec)
                      (day_type schedule))
            /\ (sec_nobody_note sec = true <-> sec_rows sec = []))
         (Dashboard.ScheduleCard current_user schedule).
Proof.
  apply List.Forall_forall. intros sec Hsec.
  unfold Dashboard.ScheduleCard in Hsec.
  apply in_map_iff in Hsec as (f & <- & _).
  unfold Dashboard.render_function.
  set (r := Dashboard.getRequiredCount f (day_type schedule)).
  destruct (js_find _ _) as [a |];
    cbn [sec_required sec_function sec_rows sec_count sec_vacancies
         sec_nobody_note].
  - split; [reflexivity |].
    destruct (user_ids a) as [| u us] eqn:Hus; cbn [length].
    + change (0 <? 0)%nat with false. cbn [negb length].
      split; [reflexivity |]. split; [| split; reflexivity].
      destruct (Nat.ltb_spec 0 r); lia.
    + change (0 <? S (length us))%nat with true. cbn [negb].
      rewrite length_map. cbn [length]. split; [reflexivity |].
      split.
      * destruct (Nat.ltb_spec (S (length us)) r); lia.
      * split; discriminate.
  - repeat split; auto; lia.
Qed.

(** X2: in both cards a row never carries a status badge and the
    response buttons together; where the buttons are, the row is the
    current user's and the buttons are the pair Accept, Decline for the
    schedule and the role of the section. *)
Theorem row_badge_excludes_buttons (current_user : string)
    (schedule : Schedule Assignment) (sec : CardSection) (row : UserRow) :
  In sec (Dashboard.ScheduleCard current_user schedule)
  \/ In sec (LegacyApp.ScheduleCard current_user schedule) ->
  In row (sec_rows sec) ->
  (row_badge row <> None -> row_buttons row = [])
  /\ (row_buttons row <> [] ->
      row_userId row = current_user
      /\ row_badge row = None
      /\ row_buttons row
         = [ mkResponseRequest (id schedule) (sec_function sec) "accepted";
             mkResponseRequest (id schedule) (sec_function sec) "declined" ]).
Proof.
  intros Hsec Hrow.
  destruct (section_rows_origin _ _ _ _ Hsec Hrow) as (a & u & _ & Hf & _ & ->).
  rewrite render_user_buttons. unfold render_user.
  cbn [row_badge row_userId]. rewrite <- Hf.
  destruct (String.eqb_spec u current_user) as [-> | _];
    destruct (responses a !! _); cbn; split; intros H; try congruence; auto.
Qed.

Lemma row_badge_excludes_buttons_witness :
  row_buttons (render_user "u2" "s1" (mkAssignment "limpeza" ["u2"; "u3"] ∅) "u2")
  = [ mkResponseRequest "s1" "limpeza" "accepted";
      mkResponseRequest "s1" "limpeza" "declined" ].
Proof.
  apply (row_badge_excludes_buttons "u2" wednesday_record
           (LegacyApp.render_assignment "u2" wednesday_record
              (mkAssignment "limpeza" ["u2"; "u3"] ∅))
           (render_user "u2" "s1" (mkAssignment "limpeza" ["u2"; "u3"] ∅) "u2")).
  - right. cbn. auto.
  - cbn. auto.
  - cbn. discriminate.
Defined.

(** X3: every request either card can send carries the id of the
    schedule, the status accepted or declined, and the role of an
    assignment of the record that lists the current user and holds no
    response of that user; a user listed nowhere, or one who has a
    response wherever listed, is offered nothing. *)
Theorem card_requests_guarded (current_user : string)
    (schedule : Schedule Assignment) (req : ResponseRequest) :
  In req (card_requests (Dashboard.ScheduleCard current_user schedule))
  \/ In req (card_requests (LegacyApp.ScheduleCard current_user schedule)) ->
  req_schedule_id req = id schedule
  /\ (req_status req = "accepted" \/ req_status req = "declined")
  /\ exists a, In a (assignments schedule)
       /\ function_type a = req_function_type req
       /\ In current_user (user_ids a)
       /\ responses a !! current_user = None.
Proof.
  intros Hreq.
  assert (exists sec row,
            (In sec (Dashboard.ScheduleCard current_user schedule)
             \/ In sec (LegacyApp.ScheduleCard current_user schedule))
            /\ In row (sec_rows sec) /\ In req (row_buttons row))
    as (sec & row & Hsec & Hrow & Hbtn).
  { unfold card_requests in Hreq.
    destruct Hreq as [Hreq | Hreq];
      apply in_flat_map in Hreq as (sec & Hsec & Hreq);
      apply in_flat_map in Hreq as (row & Hrow & Hreq);
      exists sec, row; auto. }
  destruct (section_rows_origin _ _ _ _ Hsec Hrow) as (a & u & Ha & _ & Hu & Heq).
  rewrite Heq, render_user_buttons in Hbtn.
  destruct (String.eqb_spec u current_user) as [Hcur | _]; [| destruct Hbtn].
  rewrite Hcur in Hu, Hbtn.
  destruct (responses a !! current_user) eqn:Hr; [destruct Hbtn |].
  destruct Hbtn as [<- | [<- | []]]; cbn; eauto 10.
Qed.

Lemma card_requests_guarded_witness :
  exists a, In a (assignments wednesday_record)
    /\ function_type a = "limpeza"
    /\ In "u3" (user_ids a)
    /\ responses a !! "u3" = None.
Proof.
  apply (card_requests_guarded "u3" wednesday_record
           (mkResponseRequest "s1" "limpeza" "declined")).
  left. vm_compute. auto.
Defined.



(** X5: whatever request the part_002 card can send, the App.js card can
    send for the same record and user. *)
Theorem Dashboard_requests_within_LegacyApp (current_user : string)
    (schedule : Schedule Assignment) (req : ResponseRequest) :
  In req (card_requests (Dashboard.ScheduleCard current_user schedule)) ->
  In req (card_requests (LegacyApp.ScheduleCard current_user schedule)).
Proof.
  intros Hreq. unfold card_requests in Hreq.
  apply in_flat_map in Hreq as (sec & Hsec & Hreq).
  apply in_flat_map in Hreq as (row & Hrow & Hreq).
  destruct (section_rows_origin current_user schedule sec row
              (or_introl Hsec) Hrow) as (a & u & Ha & _ & Hu & Heq).
  rewrite Heq in Hreq.
  unfold card_requests. apply in_flat_map.
  exists (LegacyApp.render_assignment current_user schedule a).
  split; [apply in_map; exact Ha |].
  cbn [LegacyApp.render_assignment sec_rows].
  apply in_flat_map. exists (render_user current_user (id schedule) a u).
  split; [apply in_map; exact Hu | exact Hreq].
Qed.

Lemma Dashboard_requests_within_LegacyApp_witness :
  In (mkResponseRequest "s1" "limpeza" "declined")
     (card_requests (LegacyApp.ScheduleCard "u3" wednesday_record)).
Proof.
  apply (Dashboard_requests_within_LegacyApp "u3" wednesday_record).
  vm_compute. auto.
Defined.

(** ** Notifications *)

Lemma mark_read_buttons (notifications : list Notification) :
  omap Dashboard.nrow_mark_read
       (map Dashboard.render_notification notifications)
  = map notification_id
        (List.filter (fun n => negb (notification_read n)) notifications).
Proof.
  induction notifications as [| n ns IH]; [reflexivity |].
  destruct n as [i m [|] c]; cbn; rewrite <- IH; reflexivity.
Qed.

(** X6: the counter on the notifications tab is the number of "mark as
    read" buttons the tab shows, and is absent exactly when there is no
    such button; the buttons are those of the unread notifications, in
    the order of the list. *)
Theorem unread_badge_counts_buttons (notifications : list Notification) :
  let rows := default [] (Dashboard.render_notifications notifications) in
  let buttons := omap Dashboard.nrow_mark_read rows in
  buttons = map notification_id
                (List.filter (fun n => negb (notification_read n))
                             notifications)
  /\ Dashboard.unread_badge notifications
     = match buttons with
       | [] => None
       | _ :: _ => Some (length buttons)
       end.
Proof.
  intros rows buttons.
  assert (Hrows : rows = map Dashboard.render_notification notifications).
  { unfold rows, Dashboard.render_notifications.
    destruct notifications; reflexivity. }
  assert (Hb : buttons
               = map notification_id
                   (List.filter (fun n => negb (notification_read n))
                                notifications)).
  { unfold buttons. rewrite Hrows. apply mark_read_buttons. }
  split; [exact Hb |].
  unfold Dashboard.unread_badge. rewrite Hb.
  destruct (List.filter _ notifications) as [| n l]; [reflexivity |].
  cbn. rewrite length_map. reflexivity.
Qed.

(** ** Authentication *)

Lemma tokenEffect_consistent (s : Auth.State) :
  Auth.consistent s -> Auth.consistent (fst (Auth.tokenEffect s)).
Proof.
  intros Hs. unfold Auth.tokenEffect.
  destruct (Auth.token s) as [t |] eqn:Ht; [| exact Hs].
  destruct (Auth.truthy (Some t)); [| exact Hs].
  destruct Hs as [Hst Hh]. split; cbn; [congruence | reflexivity].
Qed.

Lemma auth_step_consistent (e : Auth.Event) (s : Auth.State) :
  Auth.consistent s -> Auth.consistent (Auth.step e s).
Proof.
  intros Hs. unfold Auth.step.
  match goal with
  | |- Auth.consistent (if _ then ?x else _) =>
      assert (Hx : Auth.consistent x)
  end.
  { destruct e as [[t u | d] | | [u |]]; cbn; try exact Hs;
      try (split; reflexivity). }
  case_decide; [exact Hx | apply tokenEffect_consistent; exact Hx].
Qed.

(** X7: once the provider is mounted on a stored token that is absent or
    not empty, then after any sequence of login answers, logouts and
    [/me] answers the token in state, the token in [localStorage] and the
    [Authorization] header agree: the header is "Bearer " and the token
    when there is one and is absent when there is none. *)
Theorem auth_header_follows_token (stored : option string)
    (events : list Auth.Event) :
  stored <> Some "" ->
  Auth.consistent (Auth.run events (Auth.mount stored)).
Proof.
  intros Hstored.
  assert (Hm : Auth.consistent (Auth.mount stored)).
  { unfold Auth.mount, Auth.initial, Auth.tokenEffect. cbn [Auth.token].
    destruct stored as [t |]; [| split; reflexivity].
    cbn [Auth.truthy].
    destruct (String.eqb_spec t "") as [-> | _]; [congruence |].
    split; reflexivity. }
  unfold Auth.run. revert Hm. generalize (Auth.mount stored).
  induction events as [| e events IH]; intros s Hs; [exact Hs |].
  cbn [fold_left]. apply IH. apply auth_step_consistent. exact Hs.
Qed.

Lemma auth_header_follows_token_witness :
  Auth.consistent
    (Auth.run [ Auth.MeAnswered None;
                Auth.LoginAnswered
                  (Auth.LoginOk "t2" (mkUser "u1" "ana" "Ana" "ana@x" "user"));
                Auth.LogoutClick ]
       (Auth.mount (Some "t1"))).
Proof.
  apply (auth_header_follows_token (Some "t1")). discriminate.
Defined.


(** ** References stay valid *)

Lemma valid_refs_app (h ext : list Assignment) (ls : list loc) :
  AdminPanel.valid_refs h ls -> AdminPanel.valid_refs (h ++ ext)%list ls.
Proof.
  intros [Hlt Hnd]. split; [| exact Hnd].
  eapply List.Forall_impl; [| exact Hlt].
  intros l Hl. cbn in Hl. rewrite length_app. lia.
Qed.

Lemma valid_refs_alter (f : Assignment -> Assignment) (l : loc)
    (h : list Assignment) (ls : list loc) :
  AdminPanel.valid_refs h ls -> AdminPanel.valid_refs (alter f l h) ls.
Proof.
  intros [Hlt Hnd]. split; [| exact Hnd]. rewrite length_alter. exact Hlt.
Qed.

Lemma valid_refs_alloc (h objs : list Assignment) :
  AdminPanel.valid_refs (h ++ objs)%list (seq (length h) (length objs)).
Proof.
  split; [| apply NoDup_seq].
  apply List.Forall_forall. intros l Hl. apply in_seq in Hl.
  rewrite length_app. lia.
Qed.

Lemma valid_refs_nil (h : list Assignment) : AdminPanel.valid_refs h [].
Proof. split; constructor. Qed.

(** Valid references can be read. *)
Lemma valid_refs_deref (h : list Assignment) (ls : list loc) :
  AdminPanel.valid_refs h ls -> is_Some (deref h ls).
Proof.
  intros [Hlt _]. induction Hlt as [| l ls Hl _ IH]; [eexists; reflexivity |].
  cbn [deref]. destruct (lookup_lt_is_Some_2 h l Hl) as [a ->].
  destruct IH as [rest ->]. eexists; reflexivity.
Qed.

(** Reading through references depends on the cells read only. *)
Lemma deref_ext (h h' : list Assignment) (ls : list loc) :
  Forall (fun l => h' !! l = h !! l) ls -> deref h' ls = deref h ls.
Proof.
  induction 1 as [| l ls Hl _ IH]; [reflexivity |].
  cbn [deref]. rewrite Hl, IH. reflexivity.
Qed.

(** Storing fetched schedules appends to the heap; each stored schedule
    keeps the id, date and day type received and refers, by valid and
    distinct references, to the assignments received. *)
Lemma alloc_schedules_spec (data : list (Schedule Assignment)) :
  forall (h : list Assignment) (scheds : list (Schedule loc))
         (h' : list Assignment),
  alloc_schedules h data = (scheds, h') ->
  (exists ext, h' = (h ++ ext)%list)
  /\ length scheds = length data
  /\ Forall (fun sch => AdminPanel.valid_refs h' (assignments sch)) scheds
  /\ forall k rec, data !! k = Some rec ->
       exists ls,
         scheds !! k = Some (mkSchedule (id rec) (date rec) (day_type rec) ls)
         /\ deref h' ls = Some (assignments rec).
Proof.
  induction data as [| sch data IH]; intros h scheds h'; cbn [alloc_schedules].
  - intros [= <- <-]. split; [exists []; rewrite app_nil_r; reflexivity |].
    split; [reflexivity |]. split; [constructor |].
    intros k rec Hk. rewrite lookup_nil in Hk. discriminate.
  - unfold alloc_all.
    destruct (alloc_schedules (h ++ assignments sch)%list data)
      as [rest h2] eqn:Hrest.
    intros [= <- <-].
    destruct (IH _ _ _ Hrest) as ((ext & ->) & Hlen & Hvalid & Hread).
    split; [exists (assignments sch ++ ext)%list; rewrite app_assoc; reflexivity |].
    split; [cbn; rewrite Hlen; reflexivity |].
    split.
    + constructor; [| exact Hvalid].
      cbn [assignments]. apply valid_refs_app. apply valid_refs_alloc.
    + intros [| k] rec Hk; cbn in Hk.
      * injection Hk as <-. eexists. split; [reflexivity |].
        apply deref_app_l. apply deref_alloc.
      * apply (Hread k rec Hk).
Qed.

Lemma well_formed_initial : AdminPanel.well_formed AdminPanel.initial_state.
Proof.
  split; [apply valid_refs_nil |]. split; [discriminate | constructor].
Qed.

(** Growing the heap keeps a state's references valid. *)
Lemma well_formed_grow (s : AdminPanel.State) (ext : list Assignment)
    (form : AdminPanel.ScheduleForm) (show : bool) :
  AdminPanel.well_formed s ->
  AdminPanel.valid_refs (AdminPanel.heap s ++ ext)%list
    (AdminPanel.form_assignments form) ->
  AdminPanel.well_formed
    (AdminPanel.mkState (AdminPanel.heap s ++ ext)%list
       (AdminPanel.schedules s) (AdminPanel.editingSchedule s) form show).
Proof.
  intros (_ & Hedit & Hscheds) Hform.
  split; [exact Hform |]. split.
  - intros e He. apply valid_refs_app. apply Hedit. exact He.
  - cbn. eapply List.Forall_impl; [| exact Hscheds].
    intros sch. apply valid_refs_app.
Qed.

Lemma well_formed_step (e : AdminPanel.Event) (s : AdminPanel.State) :
  AdminPanel.well_formed s -> AdminPanel.well_formed (AdminPanel.step e s).
Proof.
  intros Hs. pose proof Hs as (Hform & Hedit & Hscheds).
  destruct e as [| value | dayType | i userIds | k | | answer | data];
    cbn [AdminPanel.step].
  - unfold AdminPanel.newScheduleClick, alloc_all.
    split; [apply valid_refs_alloc |]. split; [discriminate |].
    cbn. eapply List.Forall_impl; [| exact Hscheds].
    intros sch. apply valid_refs_app.
  - split; [exact Hform |]. split; assumption.
  - unfold AdminPanel.handleDayTypeChange, alloc_all.
    apply well_formed_grow; [exact Hs | apply valid_refs_alloc].
  - unfold AdminPanel.handleAssignmentChange.
    destruct (AdminPanel.form_assignments (AdminPanel.scheduleForm s) !! i)
      as [l |]; [| exact Hs].
    split; [apply valid_refs_alter; exact Hform |]. split.
    + intros e He. apply valid_refs_alter. apply Hedit. exact He.
    + cbn. eapply List.Forall_impl; [| exact Hscheds].
      intros sch. apply valid_refs_alter.
  - destruct (AdminPanel.schedules s !! k) as [sch |] eqn:Hk; [| exact Hs].
    assert (Hsch : AdminPanel.valid_refs (AdminPanel.heap s) (assignments sch)).
    { rewrite List.Forall_forall in Hscheds. apply Hscheds.
      apply list_elem_of_In. apply list_elem_of_lookup. eauto. }
    split; [exact Hsch |]. split; [| exact Hscheds].
    intros e [= <-]. exact Hsch.
  - split; [exact Hform |]. split; [discriminate | exact Hscheds].
  - destruct answer as [detail |]; cbn [snd AdminPanel.handleCreateSchedule_done];
      [exact Hs |].
    split; [apply valid_refs_nil |]. split; [discriminate | exact Hscheds].
  - unfold AdminPanel.setSchedules.
    destruct (alloc_schedules (AdminPanel.heap s) data) as [scheds h'] eqn:Ha.
    destruct (alloc_schedules_spec _ _ _ _ Ha) as ((ext & ->) & _ & Hvalid & _).
    split; [apply valid_refs_app; exact Hform |]. split; [| exact Hvalid].
    intros e He. apply valid_refs_app. apply Hedit. exact He.
Qed.

Lemma well_formed_run (events : list AdminPanel.Event) (s : AdminPanel.State) :
  AdminPanel.well_formed s -> AdminPanel.well_formed (AdminPanel.run events s).
Proof.
  unfold AdminPanel.run. revert s.
  induction events as [| e events IH]; intros s Hs; [exact Hs |].
  cbn [fold_left]. apply IH. apply well_formed_step. exact Hs.
Qed.

(** X9: whatever the administrator does in the schedule part of the
    panel, and whatever schedules arrive, no array of the form, of the
    schedule under edit or of the listed schedules ever holds a dangling
    or a repeated reference; in particular the form can always be
    serialised into the request of a save. *)
Theorem panel_references_stay_valid (events : list AdminPanel.Event) :
  AdminPanel.well_formed (AdminPanel.run events AdminPanel.initial_state)
  /\ is_Some (AdminPanel.handleCreateSchedule_request
                (AdminPanel.run events AdminPanel.initial_state)).
Proof.
  pose proof (well_formed_run events _ well_formed_initial) as Hwf.
  split; [exact Hwf |].
  destruct Hwf as (Hform & _ & _).
  unfold AdminPanel.handleCreateSchedule_request.
  destruct (valid_refs_deref _ _ Hform) as [objs ->]. eexists; reflexivity.
Qed.

(** ** What the panel changes in place *)

Lemma step_keeps_cells (e : AdminPanel.Event) (s : AdminPanel.State)
    (l : loc) (a : Assignment) :
  AdminPanel.heap s !! l = Some a ->
  exists a',
    AdminPanel.heap (AdminPanel.step e s) !! l = Some a'
    /\ function_type a' = function_type a
    /\ responses a' = responses a.
Proof.
  intros Hl.
  destruct e as [| value | dayType | i userIds | k | | answer | data];
    cbn [AdminPanel.step].
  - exists a. split; [| auto].
    unfold AdminPanel.newScheduleClick, alloc_all. cbn [AdminPanel.heap].
    apply lookup_app_l_Some. exact Hl.
  - exists a. auto.
  - exists a. split; [| auto].
    unfold AdminPanel.handleDayTypeChange, alloc_all. cbn [AdminPanel.heap].
    apply lookup_app_l_Some. exact Hl.
  - unfold AdminPanel.handleAssignmentChange.
    destruct (AdminPanel.form_assignments (AdminPanel.scheduleForm s) !! i)
      as [l0 |]; [| exists a; auto].
    cbn [AdminPanel.heap]. destruct (decide (l0 = l)) as [-> | Hne].
    + exists (set_user_ids userIds a). rewrite list_lookup_alter_eq, Hl. auto.
    + exists a. rewrite list_lookup_alter_ne by exact Hne. auto.
  - exists a. destruct (AdminPanel.schedules s !! k); auto.
  - exists a. auto.
  - exists a. destruct answer; auto.
  - exists a. split; [| auto]. unfold AdminPanel.setSchedules.
    destruct (alloc_schedules (AdminPanel.heap s) data) as [scheds h'] eqn:Ha.
    destruct (alloc_schedules_spec _ _ _ _ Ha) as ((ext & ->) & _).
    cbn [AdminPanel.heap]. apply lookup_app_l_Some. exact Hl.
Qed.

(** X10: no event of the panel removes an assignment object or changes
    its role or its responses: whatever the administrator does, an object
    that exists keeps its [function_type] and its [responses]; only its
    [user_ids] can differ. *)
Theorem panel_keeps_roles_and_responses (events : list AdminPanel.Event)
    (s : AdminPanel.State) (l : loc) (a : Assignment) :
  AdminPanel.heap s !! l = Some a ->
  exists a',
    AdminPanel.heap (AdminPanel.run events s) !! l = Some a'
    /\ function_type a' = function_type a
    /\ responses a' = responses a.
Proof.
  unfold AdminPanel.run. revert s a.
  induction events as [| e events IH]; intros s a Hl; [exists a; auto |].
  cbn [fold_left].
  destruct (step_keeps_cells e s l a Hl) as (a1 & Hl1 & Hf1 & Hr1).
  destruct (IH _ _ Hl1) as (a' & Hl' & Hf' & Hr').
  exists a'. split; [exact Hl' |]. split; congruence.
Qed.

Lemma panel_keeps_roles_and_responses_witness :
  exists a',
    AdminPanel.heap
      (AdminPanel.run
         [ AdminPanel.EditClick 0; AdminPanel.AssignmentChange 0 [];
           AdminPanel.DayTypeChange "friday"; AdminPanel.CancelClick ]
         loaded_state) !! 0 = Some a'
    /\ function_type a' = "pregacao"
    /\ responses a' = {[ "u1" := mkResponse "accepted" "" ]}.
Proof.
  exact (panel_keeps_roles_and_responses
           [ AdminPanel.EditClick 0; AdminPanel.AssignmentChange 0 [];
             AdminPanel.DayTypeChange "friday"; AdminPanel.CancelClick ]
           loaded_state 0
           (mkAssignment "pregacao" ["u1"] {[ "u1" := mkResponse "accepted" "" ]})
           eq_refl).
Defined.

(** ** Which request a save sends *)

Lemma form_edit_keeps_editing (e : AdminPanel.Event) (s : AdminPanel.State) :
  AdminPanel.is_form_edit e = true ->
  AdminPanel.editingSchedule (AdminPanel.step e s)
  = AdminPanel.editingSchedule s.
Proof.
  destruct e; try discriminate; intros _; cbn [AdminPanel.step]; try reflexivity.
  unfold AdminPanel.handleAssignmentChange.
  destruct (_ !! _); reflexivity.
Qed.

Lemma form_edits_keep_editing (events : list AdminPanel.Event)
    (s : AdminPanel.State) :
  forallb AdminPanel.is_form_edit events = true ->
  AdminPanel.editingSchedule (AdminPanel.run events s)
  = AdminPanel.editingSchedule s.
Proof.
  unfold AdminPanel.run. revert s.
  induction events as [| e events IH]; intros s; [reflexivity |].
  cbn [forallb fold_left]. intros H. apply andb_true_iff in H as [He Hes].
  rewrite (IH _ Hes). apply form_edit_keeps_editing. exact He.
Qed.

(** X11: after "Editar" on a listed schedule, whatever dates, day types
    and people are then entered in the form, a save sends a PUT to the id
    of that schedule; after "+ Nova Escala" it sends a POST. *)
Theorem save_request_method (events : list AdminPanel.Event)
    (s : AdminPanel.State) :
  AdminPanel.well_formed s ->
  forallb AdminPanel.is_form_edit events = true ->
  (forall k schedule,
     AdminPanel.schedules s !! k = Some schedule ->
     exists body,
       AdminPanel.handleCreateSchedule_request
         (AdminPanel.run (AdminPanel.EditClick k :: events) s)
       = Some (AdminPanel.PUT_schedule (id schedule) body))
  /\ exists body,
       AdminPanel.handleCreateSchedule_request
         (AdminPanel.run (AdminPanel.NewScheduleClick :: events) s)
       = Some (AdminPanel.POST_schedule body).
Proof.
  intros Hwf Hevents.
  assert (Hreq : forall e,
            exists objs,
              AdminPanel.handleCreateSchedule_request
                (AdminPanel.run (e :: events) s)
              = Some match AdminPanel.editingSchedule (AdminPanel.step e s) with
                     | Some sch =>
                         AdminPanel.PUT_schedule (id sch) objs
                     | None => AdminPanel.POST_schedule objs
                     end).
  { intros e.
    pose proof (well_formed_run (e :: events) s Hwf) as (Hform & _).
    destruct (valid_refs_deref _ _ Hform) as [objs Hobjs].
    unfold AdminPanel.handleCreateSchedule_request. rewrite Hobjs.
    change (AdminPanel.run (e :: events) s)
      with (AdminPanel.run events (AdminPanel.step e s)).
    rewrite (form_edits_keep_editing events _ Hevents).
    eexists. reflexivity. }
  split.
  - intros k schedule Hk. destruct (Hreq (AdminPanel.EditClick k)) as [objs ->].
    cbn [AdminPanel.step]. rewrite Hk. cbn. eexists. reflexivity.
  - destruct (Hreq AdminPanel.NewScheduleClick) as [objs ->].
    cbn. eexists. reflexivity.
Qed.

Lemma save_request_method_witness :
  exists body,
    AdminPanel.handleCreateSchedule_request
      (AdminPanel.run
         [ AdminPanel.EditClick 0; AdminPanel.DayTypeChange "friday";
           AdminPanel.AssignmentChange 1 ["u9"] ]
         loaded_state)
    = Some (AdminPanel.PUT_schedule "s1" body).
Proof.
  destruct (save_request_method
              [ AdminPanel.DayTypeChange "friday";
                AdminPanel.AssignmentChange 1 ["u9"] ]
              loaded_state) as [Hput _].
  - apply (well_formed_run [AdminPanel.SchedulesFetched [wednesday_record]]
             AdminPanel.initial_state well_formed_initial).
  - reflexivity.
  - apply (Hput 0 wednesday_schedule). reflexivity.
Defined.

(** X12: a schedule that is fetched, opened with "Editar" and saved with
    nothing changed is sent back as it was received: a PUT to its id
    with its date, its day type and its assignments. *)
Theorem edit_without_change_round_trip (data : list (Schedule Assignment))
    (k : nat) (rec : Schedule Assignment) (s : AdminPanel.State) :
  data !! k = Some rec ->
  AdminPanel.handleCreateSchedule_request
    (AdminPanel.run [AdminPanel.SchedulesFetched data; AdminPanel.EditClick k] s)
  = Some (AdminPanel.PUT_schedule (id rec)
            (AdminPanel.mkPayload (date rec) (day_type rec) (assignments rec))).
Proof.
  intros Hk. cbn [AdminPanel.run fold_left AdminPanel.step].
  unfold AdminPanel.setSchedules.
  destruct (alloc_schedules (AdminPanel.heap s) data) as [scheds h'] eqn:Ha.
  destruct (alloc_schedules_spec _ _ _ _ Ha) as (_ & _ & _ & Hread).
  destruct (Hread k rec Hk) as (ls & Hsch & Hderef).
  cbn [AdminPanel.schedules]. rewrite Hsch.
  unfold AdminPanel.handleCreateSchedule_request, AdminPanel.handleEditSchedule.
  cbn. rewrite Hderef. reflexivity.
Qed.

Lemma edit_without_change_round_trip_witness :
  AdminPanel.handleCreateSchedule_request
    (AdminPanel.run
       [AdminPanel.SchedulesFetched [wednesday_record]; AdminPanel.EditClick 0]
       friday_form)
  = Some (AdminPanel.PUT_schedule "s1"
            (AdminPanel.mkPayload "2025-01-08" "wednesday"
               (assignments wednesday_record))).
Proof.
  apply (edit_without_change_round_trip [wednesday_record] 0 wednesday_record
           friday_form).
  reflexivity.
Defined.

(** ** Editing in place *)

(** X13: "Cancelar" does not undo.  People selected in the form of a
    schedule under edit are written into the schedule's own objects, so
    after the form is cancelled, with nothing sent, the listed schedule
    holds the selection. *)
Theorem cancel_keeps_selection (k assignmentIndex : nat)
    (userIds : list string) (schedule : Schedule loc)
    (objs : list Assignment) (s : AdminPanel.State) :
  AdminPanel.schedules s !! k = Some schedule ->
  NoDup (assignments schedule) ->
  deref (AdminPanel.heap s) (assignments schedule) = Some objs ->
  assignmentIndex < length objs ->
  let s' := AdminPanel.run
              [ AdminPanel.EditClick k;
                AdminPanel.AssignmentChange assignmentIndex userIds;
                AdminPanel.CancelClick ] s in
  AdminPanel.schedules s' = AdminPanel.schedules s
  /\ AdminPanel.showScheduleForm s' = false
  /\ AdminPanel.editingSchedule s' = None
  /\ deref (AdminPanel.heap s') (assignments schedule)
     = Some (alter (set_user_ids userIds) assignmentIndex objs).
Proof.
  intros Hk Hnd Hderef Hlt.
  cbn [AdminPanel.run fold_left AdminPanel.step]. rewrite Hk.
  destruct (handleAssignmentChange_aliases_schedule assignmentIndex userIds
              schedule s objs Hnd Hderef Hlt) as (s1 & -> & Hscheds & Hd).
  cbn. auto.
Qed.

Lemma cancel_keeps_selection_witness :
  deref
    (AdminPanel.heap
       (AdminPanel.run
          [ AdminPanel.EditClick 0; AdminPanel.AssignmentChange 1 ["u7"];
            AdminPanel.CancelClick ] loaded_state))
    (assignments wednesday_schedule)
  = Some (alter (set_user_ids ["u7"]) 1 (assignments wednesday_record)).
Proof.
  apply (cancel_keeps_selection 0 1 ["u7"] wednesday_schedule
           (assignments wednesday_record) loaded_state).
  - reflexivity.
  - apply (NoDup_seq 0 4).
  - reflexivity.
  - cbn. lia.
Defined.

(** What a run of form events does to the cells that existed before. *)
Lemma form_edits_detached (events : list AdminPanel.Event) (n : nat) :
  forall s : AdminPanel.State,
  forallb AdminPanel.is_form_edit events = true ->
  n <= length (AdminPanel.heap s) ->
  Forall (fun l => n <= l)
         (AdminPanel.form_assignments (AdminPanel.scheduleForm s)) ->
  forall l, l < n ->
    AdminPanel.heap (AdminPanel.run events s) !! l = AdminPanel.heap s !! l.
Proof.
  unfold AdminPanel.run.
  induction events as [| e events IH]; intros s Hev Hn Hform l Hl;
    [reflexivity |].
  cbn [forallb fold_left] in Hev |- *.
  apply andb_true_iff in Hev as [He Hev].
  assert (Hstep :
    n <= length (AdminPanel.heap (AdminPanel.step e s))
    /\ Forall (fun l => n <= l)
         (AdminPanel.form_assignments
            (AdminPanel.scheduleForm (AdminPanel.step e s)))
    /\ AdminPanel.heap (AdminPanel.step e s) !! l = AdminPanel.heap s !! l).
  { destruct e as [| value | dayType | i userIds | | | |]; try discriminate;
      cbn [AdminPanel.step].
    - auto.
    - unfold AdminPanel.handleDayTypeChange, alloc_all.
      cbn [AdminPanel.heap AdminPanel.scheduleForm AdminPanel.form_assignments].
      rewrite length_app. split; [lia |]. split.
      + apply List.Forall_forall. intros l0 Hl0. apply in_seq in Hl0. lia.
      + apply lookup_app_l. lia.
    - unfold AdminPanel.handleAssignmentChange.
      destruct (AdminPanel.form_assignments (AdminPanel.scheduleForm s) !! i)
        as [l0 |] eqn:Hi; [| auto].
      cbn [AdminPanel.heap AdminPanel.scheduleForm AdminPanel.form_assignments].
      rewrite length_alter. split; [exact Hn |]. split; [exact Hform |].
      apply list_lookup_alter_ne.
      rewrite List.Forall_forall in Hform.
      assert (n <= l0).
      { apply Hform. apply list_elem_of_In. apply list_elem_of_lookup. eauto. }
      lia. }
  destruct Hstep as (Hn' & Hform' & Hl').
  rewrite (IH _ Hev Hn' Hform' l Hl). exact Hl'.
Qed.

(** X14: once the day type is changed in the form of a schedule under
    edit, the form works on objects of its own: whatever dates, day types
    and people are entered afterwards, the objects of the listed schedule
    stay as they were. *)
Theorem dayType_change_detaches_form (events : list AdminPanel.Event)
    (dayType : string) (schedule : Schedule loc) (s : AdminPanel.State) :
  Forall (fun l => l < length (AdminPanel.heap s)) (assignments schedule) ->
  forallb AdminPanel.is_form_edit events = true ->
  deref
    (AdminPanel.heap
       (AdminPanel.run events
          (AdminPanel.handleDayTypeChange dayType
             (AdminPanel.handleEditSchedule schedule s))))
    (assignments schedule)
  = deref (AdminPanel.heap s) (assignments schedule).
Proof.
  intros Hvalid Hev. apply deref_ext.
  eapply List.Forall_impl; [| exact Hvalid].
  intros l Hl. cbn in Hl.
  rewrite (form_edits_detached events (length (AdminPanel.heap s))).
  - unfold AdminPanel.handleDayTypeChange, AdminPanel.handleEditSchedule, alloc_all. cbn [AdminPanel.heap].
    apply lookup_app_l. exact Hl.
  - exact Hev.
  - unfold AdminPanel.handleDayTypeChange, AdminPanel.handleEditSchedule, alloc_all. cbn [AdminPanel.heap].
    rewrite length_app. lia.
  - unfold AdminPanel.handleDayTypeChange, AdminPanel.handleEditSchedule, alloc_all.
    cbn [AdminPanel.heap AdminPanel.scheduleForm AdminPanel.form_assignments].
    apply List.Forall_forall. intros l0 Hl0. apply in_seq in Hl0. lia.
  - exact Hl.
Qed.

Lemma dayType_change_detaches_form_witness :
  deref
    (AdminPanel.heap
       (AdminPanel.run
          [ AdminPanel.AssignmentChange 0 ["u4"]; AdminPanel.DateChange "2025-02-07" ]
          (AdminPanel.handleDayTypeChange "friday"
             (AdminPanel.handleEditSchedule wednesday_schedule loaded_state))))
    (assignments wednesday_schedule)
  = deref (AdminPanel.heap loaded_state) (assignments wednesday_schedule).
Proof.
  apply (dayType_change_detaches_form
           [ AdminPanel.AssignmentChange 0 ["u4"]; AdminPanel.DateChange "2025-02-07" ]
           "friday" wednesday_schedule loaded_state).
  - repeat constructor.
  - reflexivity.
Defined.

(** X15: selections are field updates.  A second selection for the same
    role replaces the first, and, where the form's references are
    distinct, selections for two different roles give the same state in
    either order. *)
Theorem selections_compose (i j : nat) (ids1 ids2 : list string)
    (s : AdminPanel.State) :
  (forall s1,
     AdminPanel.handleAssignmentChange i ids1 s = Normal s1 ->
     AdminPanel.handleAssignmentChange i ids2 s1
     = AdminPanel.handleAssignmentChange i ids2 s)
  /\ (i <> j ->
      NoDup (AdminPanel.form_assignments (AdminPanel.scheduleForm s)) ->
      forall s1 s2 s12 s21,
        AdminPanel.handleAssignmentChange i ids1 s = Normal s1 ->
        AdminPanel.handleAssignmentChange j ids2 s1 = Normal s12 ->
        AdminPanel.handleAssignmentChange j ids2 s = Normal s2 ->
        AdminPanel.handleAssignmentChange i ids1 s2 = Normal s21 ->
        s12 = s21).
Proof.
  unfold AdminPanel.handleAssignmentChange. split.
  - intros s1.
    destruct (AdminPanel.form_assignments (AdminPanel.scheduleForm s) !! i)
      as [l |] eqn:Hi; [| discriminate].
    intros [= <-].
    cbn [AdminPanel.scheduleForm AdminPanel.form_assignments AdminPanel.heap
         AdminPanel.form_date AdminPanel.form_day_type AdminPanel.schedules
         AdminPanel.editingSchedule AdminPanel.showScheduleForm].
    rewrite Hi.
    assert (Halter : alter (set_user_ids ids2) l
                       (alter (set_user_ids ids1) l (AdminPanel.heap s))
                     = alter (set_user_ids ids2) l (AdminPanel.heap s)).
    { rewrite list_alter_alter_eq. apply list_alter_ext; [| reflexivity].
      intros a _. reflexivity. }
    rewrite Halter. reflexivity.
  - intros Hij Hnd s1 s2 s12 s21.
    destruct (AdminPanel.form_assignments (AdminPanel.scheduleForm s) !! i)
      as [li |] eqn:Hi; [| discriminate].
    destruct (AdminPanel.form_assignments (AdminPanel.scheduleForm s) !! j)
      as [lj |] eqn:Hj.
    2:{ intros [= <-]. cbn. rewrite Hj. discriminate. }
    intros [= <-].
    cbn [AdminPanel.scheduleForm AdminPanel.form_assignments AdminPanel.heap
         AdminPanel.form_date AdminPanel.form_day_type AdminPanel.schedules
         AdminPanel.editingSchedule AdminPanel.showScheduleForm].
    rewrite Hj. intros [= <-] [= <-].
    cbn [AdminPanel.scheduleForm AdminPanel.form_assignments AdminPanel.heap
         AdminPanel.form_date AdminPanel.form_day_type AdminPanel.schedules
         AdminPanel.editingSchedule AdminPanel.showScheduleForm].
    rewrite Hi. intros [= <-].
    assert (Hne : li <> lj).
    { intros ->. apply Hij. eapply NoDup_lookup; eassumption. }
    rewrite (list_alter_alter_ne _ _ _ _ _ Hne). reflexivity.
Qed.

Lemma selections_compose_witness :
  AdminPanel.handleAssignmentChange 1 ["u5"] overstaffed_form
  = AdminPanel.handleAssignmentChange 1 ["u5"]
      (AdminPanel.dateChange "2025-01-22"
         (AdminPanel.newScheduleClick AdminPanel.initial_state)).
Proof.
  destruct (selections_compose 1 2 ["u2"; "u3"; "u4"; "u5"] ["u5"]
              (AdminPanel.dateChange "2025-01-22"
                 (AdminPanel.newScheduleClick AdminPanel.initial_state)))
    as [Hsame Hcomm].
  pose proof (Hcomm ltac:(lia) (NoDup_seq 0 4)
                overstaffed_form
                (AdminPanel.mkState
                   (alter (set_user_ids ["u5"]) 2
                      (AdminPanel.initializeScheduleAssignments "wednesday"))
                   [] None
                   (AdminPanel.mkScheduleForm "2025-01-22" "wednesday" [0; 1; 2; 3])
                   true)
                _ _ eq_refl eq_refl eq_refl eq_refl) as _.
  apply Hsame. reflexivity.
Defined.

(** X16: [handleAssignmentChange] throws exactly when the index is not
    one of the form's assignments; otherwise it completes, and leaves the
    form's date, day type and array, the listed schedules, the schedule
    under edit and the number of objects as they were. *)
Theorem handleAssignmentChange_bounds (assignmentIndex : nat)
    (userIds : list string) (s : AdminPanel.State) :
  (AdminPanel.handleAssignmentChange assignmentIndex userIds s = Throw TypeError
   <-> length (AdminPanel.form_assignments (AdminPanel.scheduleForm s))
       <= assignmentIndex)
  /\ forall s',
       AdminPanel.handleAssignmentChange assignmentIndex userIds s = Normal s' ->
       assignmentIndex
         < length (AdminPanel.form_assignments (AdminPanel.scheduleForm s))
       /\ AdminPanel.scheduleForm s' = AdminPanel.scheduleForm s
       /\ AdminPanel.schedules s' = AdminPanel.schedules s
       /\ AdminPanel.editingSchedule s' = AdminPanel.editingSchedule s
       /\ AdminPanel.showScheduleForm s' = AdminPanel.showScheduleForm s
       /\ length (AdminPanel.heap s') = length (AdminPanel.heap s).
Proof.
  unfold AdminPanel.handleAssignmentChange.
  destruct (AdminPanel.form_assignments (AdminPanel.scheduleForm s)
              !! assignmentIndex) as [l |] eqn:Hl.
  - pose proof (lookup_lt_Some _ _ _ Hl) as Hlt. split.
    + split; [discriminate | lia].
    + intros s' [= <-]. cbn. rewrite length_alter.
      destruct (AdminPanel.scheduleForm s). cbn in *. repeat split; auto.
  - pose proof (lookup_ge_None_1 _ _ Hl) as Hge. split.
    + split; [intros _; exact Hge | reflexivity].
    + discriminate.
Qed.

Lemma handleAssignmentChange_bounds_witness :
  AdminPanel.scheduleForm friday_form_u1 = AdminPanel.scheduleForm friday_form
  /\ length (AdminPanel.heap friday_form_u1) = length (AdminPanel.heap friday_form).
Proof.
  destruct (handleAssignmentChange_bounds 0 ["u1"] friday_form) as [_ H].
  destruct (H friday_form_u1 eq_refl) as (_ & Hform & _ & _ & _ & Hlen).
  split; assumption.
Defined.

(** ** Who can be selected *)

Lemma selectedValues_within (options : list string) (selected : list bool)
    (v : string) :
  In v (AdminPanel.selectedValues options selected) -> In v options.
Proof.
  revert selected. induction options as [| o options IH];
    intros [| b selected]; cbn; try tauto.
  destruct b; cbn; intros H; [destruct H as [-> | H] |]; eauto.
Qed.

Lemma assignment_options_are_users (users : list User) (v : string) :
  In v (AdminPanel.assignment_options users) ->
  exists u, In u users /\ user_id u = v /\ user_role u = "user".
Proof.
  unfold AdminPanel.assignment_options. intros H.
  apply in_map_iff in H as (u & <- & Hu).
  apply filter_In in Hu as [Hin Hrole]. apply String.eqb_eq in Hrole.
  exists u. auto.
Qed.

(** X17: through the select of the form only users whose role is "user"
    can be put on a role.  After a change of the select the assignment
    holds exactly the values selected, each the id of a listed user with
    role "user"; ids the assignment held before that are not among the
    options are gone. *)
Theorem selectChange_only_role_users (users : list User) (index : nat)
    (selected : list bool) (s s' : AdminPanel.State) (l : loc)
    (a : Assignment) :
  AdminPanel.selectChange users index selected s = Normal s' ->
  AdminPanel.form_assignments (AdminPanel.scheduleForm s) !! index = Some l ->
  AdminPanel.heap s !! l = Some a ->
  exists a',
    AdminPanel.heap s' !! l = Some a'
    /\ function_type a' = function_type a
    /\ user_ids a'
       = AdminPanel.selectedValues (AdminPanel.assignment_options users) selected
    /\ forall v, In v (user_ids a') ->
         exists u, In u users /\ user_id u = v /\ user_role u = "user".
Proof.
  unfold AdminPanel.selectChange, AdminPanel.handleAssignmentChange.
  intros Hs Hl Ha. rewrite Hl in Hs. injection Hs as <-.
  cbn [AdminPanel.heap]. rewrite list_lookup_alter_eq, Ha.
  eexists. split; [reflexivity |]. split; [reflexivity |].
  split; [reflexivity |].
  cbn [set_user_ids user_ids]. intros v Hv.
  apply assignment_options_are_users. eapply selectedValues_within. exact Hv.
Qed.

Lemma selectChange_only_role_users_witness :
  exists a',
    AdminPanel.heap friday_form_selected !! 4 = Some a'
    /\ function_type a' = "pregacao"
    /\ user_ids a' = ["u2"]
    /\ forall v, In v (user_ids a') ->
         exists u, In u sample_users /\ user_id u = v /\ user_role u = "user".
Proof.
  exact (selectChange_only_role_users sample_users 0 [false; true]
           friday_form friday_form_selected 4 (mkAssignment "pregacao" [] ∅)
           eq_refl eq_refl eq_refl).
Defined.

(** ** The form and the card count alike *)

(** X18: for the assignment the card shows under a role, the form and
    the card agree on the number of people and on the required count,
    and the over-staffing warning of the form and a vacant slot on the
    card never go together: the warning stands exactly where the count
    exceeds the requirement, vacancies exactly where it falls short. *)
Theorem form_warning_and_card_vacancies (current_user : string)
    (schedule : Schedule Assignment) (a : Assignment) :
  js_find (fun x => String.eqb (function_type x) (function_type a))
          (assignments schedule) = Some a ->
  let sec := Dashboard.render_function current_user schedule (function_type a) in
  let row := AdminPanel.render_form_row (day_type schedule) a in
  sec_count sec = AdminPanel.frow_count row
  /\ sec_required sec = Some (AdminPanel.frow_required row)
  /\ (AdminPanel.frow_warning row = true
      <-> AdminPanel.frow_required row < AdminPanel.frow_count row)
  /\ (0 < sec_vacancies sec
      <-> AdminPanel.frow_count row < AdminPanel.frow_required row)
  /\ (AdminPanel.frow_warning row = true -> sec_vacancies sec = 0).
Proof.
  intros Hfind sec row. unfold sec, row, Dashboard.render_function.
  rewrite Hfind.
  cbn [sec_count sec_required sec_vacancies AdminPanel.render_form_row
       AdminPanel.frow_count AdminPanel.frow_required AdminPanel.frow_warning].
  change (AdminPanel.getRequiredCount (function_type a) (day_type schedule))
    with (Dashboard.getRequiredCount (function_type a) (day_type schedule)).
  set (r := Dashboard.getRequiredCount (function_type a) (day_type schedule)).
  set (n := length (user_ids a)).
  split; [reflexivity |]. split; [reflexivity |].
  split; [apply Nat.ltb_lt |].
  destruct (Nat.ltb_spec n r) as [Hlt | Hge]; split.
  - split; lia.
  - intros Hw. apply Nat.ltb_lt in Hw. lia.
  - split; lia.
  - reflexivity.
Qed.

Lemma form_warning_and_card_vacancies_witness :
  0 < sec_vacancies (Dashboard.render_function "u2" wednesday_record "limpeza")
  <-> 2 < 3.
Proof.
  apply (form_warning_and_card_vacancies "u2" wednesday_record
           (mkAssignment "limpeza" ["u2"; "u3"] ∅)).
  reflexivity.
Defined.
